(** * vns: the address helpers of [web/vns/models.py]

    A shallow embedding of the three derived-value methods of the
    [IPAssignment] model ([get_ip], [get_mask], [get_mac]) and of the
    declaration of its [mask] field, together with the library functions
    those one-liners call:

    - the Python 2 built-ins they use (the shift operator, [range], the
      ['%d'] format, [struct.pack('>I', _)], slicing),
    - [socket.inet_aton], which is the C library's [inet_aton(3)],
    - [hashlib.md5], which is MD5 as in RFC 1321.

    Python 2 [str] values are byte strings: text is a [string] (a list of
    8-bit characters) and binary results are [list byte].  Python integers
    are unbounded and are modelled by [Z].  [TextRow] has the methods on a
    row whose address may also be a unicode string. *)

From Stdlib Require Import ZArith List String Ascii Bool Lia DecimalString.
From Stdlib Require Import Init.Byte.
From Stdlib Require DecimalPos DecimalZ DecimalFacts.
Import ListNotations.
Open Scope Z_scope.

(** ** Exceptions and results *)

(** The exceptions the modelled code can raise, all of them Python's.  The
    specification names errors by role: its [FormatError] is what [get_ip]
    raises on text it cannot parse ([socket.error]); its [RangeError] is
    what a prefix length out of range is to be answered with. *)
Inductive exn : Type :=
| ValueError          (* "negative shift count" *)
| StructError         (* struct.error: 'I' format requires 0 <= number <= 4294967295 *)
| SocketError         (* socket.error: illegal IP address string passed to inet_aton *)
| TypeError           (* must be string without null bytes *)
| UnicodeEncodeError. (* 'ascii' codec can't encode character *)

Inductive result (A : Type) : Type :=
| Ok (a : A)
| Raise (e : exn).
Arguments Ok {A} a.
Arguments Raise {A} e.

Definition bind {A B : Type} (r : result A) (k : A -> result B) : result B :=
  match r with
  | Ok a => k a
  | Raise e => Raise e
  end.

Declare Scope py_scope.
Notation "x <- r ;; k" := (bind r (fun x => k))
  (at level 61, r at next level, right associativity) : py_scope.
Open Scope py_scope.

Definition raises {A : Type} (r : result A) : Prop :=
  exists e, r = Raise e.

(** ** Bytes *)

Definition byte_of_Z (z : Z) : byte :=
  match Byte.of_N (Z.to_N (z mod 256)) with
  | Some b => b
  | None => x00
  end.

Definition Z_of_byte (b : byte) : Z := Z.of_N (Byte.to_N b).

(** The value of a byte string read most significant byte first. *)
Definition be_value (bs : list byte) : Z :=
  fold_left (fun acc b => acc * 256 + Z_of_byte b) bs 0.

(** ** Python built-ins *)

Module Py.

(** [a << n]: a negative shift count is a [ValueError]. *)
Definition lshift (a n : Z) : result Z :=
  if n <? 0 then Raise ValueError else Ok (Z.shiftl a n).

(** [range(lo, hi)]. *)
Definition range (lo hi : Z) : list Z :=
  map (fun k => lo + Z.of_nat k) (seq 0 (Z.to_nat (hi - lo))).

(** ['%d' % i]. *)
Definition fmt_d (i : Z) : string := NilZero.string_of_int (Z.to_int i).

(** The store loop of [struct.pack] for a big-endian integer of [n]
    bytes: [do { p[--i] = (char)x; x >>= 8; } while (i > 0)]. *)
Fixpoint be_bytes (n : nat) (x : Z) : list byte :=
  match n with
  | O => []
  | S n' => be_bytes n' (Z.shiftr x 8) ++ [byte_of_Z (Z.land x 255)]
  end.

(** [struct.pack('>I', v)]: a value that does not fit an unsigned 32-bit
    integer is a [struct.error] (Python 2.7 and later; there is no
    masking). *)
Definition struct_pack_BE_I (v : Z) : result (list byte) :=
  if (0 <=? v) && (v <=? 4294967295)
  then Ok (be_bytes 4 v)
  else Raise StructError.

(** The slice [s[0:n]]. *)
Definition slice_to {A : Type} (n : nat) (s : list A) : list A := firstn n s.

End Py.

(** ** The [IPAssignment] model *)

(** The fields of an [IPAssignment] row.  Foreign keys are the referenced
    rows' identifiers. *)
Record IPAssignment : Type := {
  topology : Z;
  port : Z;
  ip : string;
  mask : Z
}.

(** [choices=tuple([(i, u'/%d'%i) for i in range(1,33)])] of the [mask]
    field. *)
Definition mask_choices : list (Z * string) :=
  map (fun i => (i, ("/" ++ Py.fmt_d i)%string)) (Py.range 1 33).

(** [get_mask]:
    [struct.pack('>I', 0xffffffff ^ (1 << 32 - self.mask) - 1)].
    In Python [-] binds tighter than [<<], which binds tighter than [^]. *)
Definition get_mask (self : IPAssignment) : result (list byte) :=
  n <- Py.lshift 1 (32 - mask self) ;;
  Py.struct_pack_BE_I (Z.lxor 4294967295 (n - 1)).

(** ** The C library's [inet_aton] *)

Module Libc.

Definition code (c : ascii) : Z := Z.of_N (N_of_ascii c).

Definition isdigit (c : ascii) : bool := (48 <=? code c) && (code c <=? 57).

Definition isxdigit (c : ascii) : bool :=
  isdigit c
  || ((97 <=? code c) && (code c <=? 102))
  || ((65 <=? code c) && (code c <=? 70)).

Definition isascii (c : ascii) : bool := code c <? 128.

(** Space, and the controls from tab to carriage return. *)
Definition isspace (c : ascii) : bool :=
  (code c =? 32) || ((9 <=? code c) && (code c <=? 13)).

Definition digit_value (c : ascii) : Z :=
  if isdigit c then code c - 48
  else if 97 <=? code c then code c - 87
  else code c - 55.

(** The digit loop of [strtoul]: the longest run of digits of [base]. *)
Fixpoint scan_digits (base : Z) (s : string) (acc : Z) : Z * string :=
  match s with
  | String c s' =>
      if isxdigit c && (digit_value c <? base)
      then scan_digits base s' (acc * base + digit_value c)
      else (acc, s)
  | EmptyString => (acc, s)
  end.

Definition is_x (c : ascii) : bool := (code c =? 120) || (code c =? 88).

(** [strtoul(cp, &endp, 0)] on text whose first character is a digit (the
    only way [inet_aton] calls it): [0x] followed by a hexadecimal digit
    selects base 16, another leading [0] base 8, anything else base 10.
    The value is not truncated here; the caller rejects what exceeds 32
    bits, which is also what it does when [strtoul] reports overflow. *)
Definition strtoul_base0 (cp : string) : Z * string :=
  match cp with
  | String c0 rest =>
      if code c0 =? 48 then
        match rest with
        | String x (String h tl) =>
            if is_x x && isxdigit h
            then scan_digits 16 (String h tl) 0
            else scan_digits 8 cp 0
        | _ => scan_digits 8 cp 0
        end
      else scan_digits 10 cp 0
  | EmptyString => (0, cp)
  end.

(** The parsing loop: numbers separated by dots, each number before a
    dot at most 255, at most three dots.  The result is the parts stored
    so far, the last number read, and the text after it.  The loop runs at
    most four times: with three parts stored a further dot is rejected. *)
Fixpoint inet_aton_loop (fuel : nat) (cp : string) (pp : list Z)
  : option (list Z * Z * string) :=
  match fuel with
  | O => None
  | S fuel' =>
      match cp with
      | EmptyString => None
      | String c _ =>
          if negb (isdigit c) then None
          else
            let '(ul, endp) := strtoul_base0 cp in
            if ul >? 4294967295 then None
            else
              match endp with
              | String d cp' =>
                  if code d =? 46 then
                    if (2 <? List.length pp)%nat || (ul >? 255) then None
                    else inet_aton_loop fuel' cp' (pp ++ [ul])
                  else Some (pp, ul, endp)
              | EmptyString => Some (pp, ul, endp)
              end
      end
  end.

(** [max[pp - res.bytes]]: the limit of the last number, by the number
    of parts before it. *)
Definition last_max (parts : nat) : Z :=
  nth parts [4294967295; 16777215; 65535; 255] 0.

(** [res.word | htonl (val)], byte by byte in memory order. *)
Definition or_last (pp : list Z) (val : Z) : list byte :=
  map (fun i =>
         byte_of_Z (Z.lor (nth i pp 0)
                          (Z.land (Z.shiftr val (8 * Z.of_nat (3 - i))) 255)))
      (seq 0 4).

(** [inet_aton]: after the last number the text must end or continue
    with an ASCII white-space character (what follows that is not looked
    at).  The loop only calls [strtoul] on a digit, so a digit has always
    been read and the test of [digit] cannot fail. *)
Definition inet_aton (cp : string) : option (list byte) :=
  match inet_aton_loop 4 cp [] with
  | None => None
  | Some (pp, val, endp) =>
      let garbage := match endp with
                     | EmptyString => false
                     | String c _ => negb (isascii c) || negb (isspace c)
                     end in
      if garbage then None
      else if val >? last_max (List.length pp) then None
      else Some (or_last pp val)
  end.

End Libc.

(** ** MD5 (RFC 1321) *)

Module MD5.

Definition w32 (x : Z) : Z := x mod 4294967296.

Definition rotl (x c : Z) : Z :=
  w32 (Z.lor (Z.shiftl x c) (Z.shiftr x (32 - c))).

Definition lnot32 (x : Z) : Z := Z.lxor x 4294967295.

(** The per-round shift amounts. *)
Definition S : list Z :=
  [7; 12; 17; 22; 7; 12; 17; 22; 7; 12; 17; 22; 7; 12; 17; 22;
   5;  9; 14; 20; 5;  9; 14; 20; 5;  9; 14; 20; 5;  9; 14; 20;
   4; 11; 16; 23; 4; 11; 16; 23; 4; 11; 16; 23; 4; 11; 16; 23;
   6; 10; 15; 21; 6; 10; 15; 21; 6; 10; 15; 21; 6; 10; 15; 21].

(** [T[i] = floor(2^32 * abs(sin(i + 1)))]. *)
Definition T : list Z :=
  [0xd76aa478; 0xe8c7b756; 0x242070db; 0xc1bdceee;
   0xf57c0faf; 0x4787c62a; 0xa8304613; 0xfd469501;
   0x698098d8; 0x8b44f7af; 0xffff5bb1; 0x895cd7be;
   0x6b901122; 0xfd987193; 0xa679438e; 0x49b40821;
   0xf61e2562; 0xc040b340; 0x265e5a51; 0xe9b6c7aa;
   0xd62f105d; 0x02441453; 0xd8a1e681; 0xe7d3fbc8;
   0x21e1cde6; 0xc33707d6; 0xf4d50d87; 0x455a14ed;
   0xa9e3e905; 0xfcefa3f8; 0x676f02d9; 0x8d2a4c8a;
   0xfffa3942; 0x8771f681; 0x6d9d6122; 0xfde5380c;
   0xa4beea44; 0x4bdecfa9; 0xf6bb4b60; 0xbebfbc70;
   0x289b7ec6; 0xeaa127fa; 0xd4ef3085; 0x04881d05;
   0xd9d4d039; 0xe6db99e5; 0x1fa27cf8; 0xc4ac5665;
   0xf4292244; 0x432aff97; 0xab9423a7; 0xfc93a039;
   0x655b59c3; 0x8f0ccc92; 0xffeff47d; 0x85845dd1;
   0x6fa87e4f; 0xfe2ce6e0; 0xa3014314; 0x4e0811a1;
   0xf7537e82; 0xbd3af235; 0x2ad7d2bb; 0xeb86d391].

(** Little-endian bytes of a word, and back. *)
Fixpoint le_bytes (n : nat) (x : Z) : list byte :=
  match n with
  | O => []
  | Datatypes.S n' => byte_of_Z (Z.land x 255) :: le_bytes n' (Z.shiftr x 8)
  end.

Definition le_word (bs : list byte) : Z :=
  fold_right (fun b acc => Z_of_byte b + 256 * acc) 0 bs.

(** Padding: a one bit, zeros up to 56 modulo 64 bytes, then the length
    in bits as a 64-bit little-endian integer. *)
Definition pad (msg : list byte) : list byte :=
  let len := Z.of_nat (List.length msg) in
  msg ++ [x80] ++ repeat x00 (Z.to_nat ((55 - len) mod 64))
      ++ le_bytes 8 ((8 * len) mod 18446744073709551616).

Fixpoint chunks {A : Type} (size count : nat) (l : list A) : list (list A) :=
  match count with
  | O => []
  | Datatypes.S count' =>
      firstn size l :: chunks size count' (skipn size l)
  end.

Definition block_words (block : list byte) : list Z :=
  map le_word (chunks 4 16 block).

Definition state : Type := Z * Z * Z * Z.

Definition init : state :=
  (0x67452301, 0xefcdab89, 0x98badcfe, 0x10325476).

Definition step (M : list Z) (st : state) (i : nat) : state :=
  let '(a, b, c, d) := st in
  let zi := Z.of_nat i in
  let '(f, g) :=
    if zi <? 16 then (Z.lor (Z.land b c) (Z.land (lnot32 b) d), zi)
    else if zi <? 32 then
      (Z.lor (Z.land d b) (Z.land (lnot32 d) c), (5 * zi + 1) mod 16)
    else if zi <? 48 then (Z.lxor b (Z.lxor c d), (3 * zi + 5) mod 16)
    else (Z.lxor c (Z.lor b (lnot32 d)), (7 * zi) mod 16) in
  let f' := w32 (f + a + nth i T 0 + nth (Z.to_nat g) M 0) in
  (d, w32 (b + rotl f' (nth i S 0)), b, c).

Definition process_block (st : state) (block : list byte) : state :=
  let '(a0, b0, c0, d0) := st in
  let '(a, b, c, d) := fold_left (step (block_words block)) (seq 0 64) st in
  (w32 (a0 + a), w32 (b0 + b), w32 (c0 + c), w32 (d0 + d)).

Definition digest (msg : list byte) : list byte :=
  let padded := pad msg in
  let '(a, b, c, d) :=
    fold_left process_block
              (chunks 64 (List.length padded / 64) padded) init in
  le_bytes 4 a ++ le_bytes 4 b ++ le_bytes 4 c ++ le_bytes 4 d.

End MD5.

(** ** The library calls of the model's methods *)

Module PyLib.

Fixpoint has_nul (s : string) : bool :=
  match s with
  | EmptyString => false
  | String c s' => (Libc.code c =? 0) || has_nul s'
  end.

(** [socket.inet_aton(s)]: the argument is passed as a C string, so a
    string with a null byte is a [TypeError]; what the C library's
    [inet_aton] rejects is a [socket.error]. *)
Definition inet_aton (s : string) : result (list byte) :=
  if has_nul s then Raise TypeError
  else match Libc.inet_aton s with
       | Some bs => Ok bs
       | None => Raise SocketError
       end.

(** [hashlib.md5(s).digest()]: a new hash object fed [s], and its digest. *)
Definition md5_digest (s : string) : list byte :=
  MD5.digest (list_byte_of_string s).

End PyLib.

(** [get_ip]: [inet_aton(self.ip)], on a row whose address is a byte
    string; [TextRow.get_ip] below is the method on a row whose address may
    be a unicode string. *)
Definition get_ip (self : IPAssignment) : result (list byte) :=
  PyLib.inet_aton (ip self).

(** [get_mac]: ['\x00' + hashlib.md5(self.ip).digest()[0:5]], on a row whose
    address is a byte string; [TextRow.get_mac] below is the method on a
    row whose address may be a unicode string. *)
Definition get_mac (self : IPAssignment) : result (list byte) :=
  Ok ([x00] ++ Py.slice_to 5 (PyLib.md5_digest (ip self))).

(** ** Definitions used in the statements *)

Definition mask32 (bits : Z) : Z :=
  Z.lxor 4294967295 (Z.shiftl 1 (32 - bits) - 1).

Definition with_mask (bits : Z) : IPAssignment :=
  {| topology := 0; port := 0; ip := EmptyString; mask := bits |}.

Definition result_bytes_eqb (r : result (list byte)) (bs : list byte) : bool :=
  match r with
  | Ok l => if list_eq_dec Byte.byte_eq_dec l bs then true else false
  | Raise _ => false
  end.

Definition mask_check (bits : Z) : bool :=
  result_bytes_eqb (get_mask (with_mask bits)) (Py.be_bytes 4 (mask32 bits))
  && (List.length (Py.be_bytes 4 (mask32 bits)) =? 4)%nat
  && (be_value (Py.be_bytes 4 (mask32 bits)) =? mask32 bits)
  && forallb (fun i => Bool.eqb (Z.testbit (mask32 bits) i) (32 - bits <=? i))
             (Py.range 0 32).

(** ** Dotted-quad text *)

Definition with_ip (text : string) : IPAssignment :=
  {| topology := 0; port := 0; ip := text; mask := 24 |}.

(** The dot-separated parts of a text. *)
Fixpoint split_dots (s : string) : list string :=
  match s with
  | EmptyString => [EmptyString]
  | String c s' =>
      if Libc.code c =? 46 then EmptyString :: split_dots s'
      else match split_dots s' with
           | p :: ps => String c p :: ps
           | [] => [String c EmptyString]
           end
  end.

Fixpoint decimal_value (s : string) (acc : Z) : option Z :=
  match s with
  | EmptyString => Some acc
  | String c s' =>
      if Libc.isdigit c
      then decimal_value s' (10 * acc + (Libc.code c - 48))
      else None
  end.

(** A part of a dotted quad: one to three decimal digits, at most 255.
    Leading zeros are allowed, as in the field type's own pattern for an
    IPv4 address. *)
Definition part_value (p : string) : option Z :=
  if (1 <=? String.length p)%nat && (String.length p <=? 3)%nat then
    match decimal_value p 0 with
    | Some v => if v <=? 255 then Some v else None
    | None => None
    end
  else None.

Definition parse_quad (s : string) : option (Z * Z * Z * Z) :=
  match split_dots s with
  | [p1; p2; p3; p4] =>
      match part_value p1, part_value p2, part_value p3, part_value p4 with
      | Some a, Some b, Some c, Some d => Some (a, b, c, d)
      | _, _, _, _ => None
      end
  | _ => None
  end.

(** A syntactically valid dotted-quad IPv4 address. *)
Definition dotted_quad (s : string) : bool :=
  match parse_quad s with
  | Some _ => true
  | None => false
  end.

(** The four numbers in decimal, joined by dots. *)
Definition quad_text (a b c d : Z) : string :=
  (Py.fmt_d a ++ "." ++ Py.fmt_d b ++ "." ++ Py.fmt_d c ++ "." ++ Py.fmt_d d)%string.

(** A dotted quad without its leading zeros. *)
Definition canonical_form (s : string) : string :=
  match parse_quad s with
  | Some (a, b, c, d) => quad_text a b c d
  | None => s
  end.

(** A binary address rendered back to text. *)
Definition render (bs : list byte) : string :=
  String.concat "." (map (fun b => Py.fmt_d (Z_of_byte b)) bs).

Definition first_is_digit (s : string) : bool :=
  match s with
  | String c _ => Libc.isdigit c
  | EmptyString => false
  end.

Definition all_digits (s : string) : bool :=
  forallb Libc.isdigit (list_ascii_of_string s).

Definition octet_check (a : Z) : bool :=
  let t := Py.fmt_d a in
  all_digits t
  && first_is_digit t
  && negb (PyLib.has_nul t)
  && (fst (Libc.scan_digits 10 t 0) =? a)
  && (match t with
      | String c0 _ => if Libc.code c0 =? 48 then String.eqb t "0" else true
      | EmptyString => false
      end)
  && (Z_of_byte (byte_of_Z a) =? a)
  && (Z.land (Z.shiftr a 24) 255 =? 0)
  && (Z.land (Z.shiftr a 16) 255 =? 0)
  && (Z.land (Z.shiftr a 8) 255 =? 0)
  && (Z.land (Z.shiftr a 0) 255 =? a).

(** Where a decimal number stops: at the end of the text or at a dot. *)
Definition ends_number (rest : string) : Prop :=
  rest = EmptyString \/ exists r, rest = String "." r.

(** What [octet_check] establishes, as propositions. *)
Record octet_facts (a : Z) : Prop := {
  of_digits : all_digits (Py.fmt_d a) = true;
  of_first : first_is_digit (Py.fmt_d a) = true;
  of_nul : PyLib.has_nul (Py.fmt_d a) = false;
  of_value : fst (Libc.scan_digits 10 (Py.fmt_d a) 0) = a;
  of_zero : match Py.fmt_d a with
            | String c0 _ =>
                if Libc.code c0 =? 48
                then String.eqb (Py.fmt_d a) "0" = true
                else True
            | EmptyString => False
            end;
  of_byte : Z_of_byte (byte_of_Z a) = a;
  of_shr24 : Z.land (Z.shiftr a 24) 255 = 0;
  of_shr16 : Z.land (Z.shiftr a 16) 255 = 0;
  of_shr8 : Z.land (Z.shiftr a 8) 255 = 0;
  of_shr0 : Z.land (Z.shiftr a 0) 255 = a
}.

Definition mask_nonzero_check (bits : Z) : bool :=
  negb (result_bytes_eqb (get_mask (with_mask bits)) [x00; x00; x00; x00]).

(** ** Further definitions: decimal text, masks, display texts *)

(** A text at which a run of decimal digits stops: empty, or starting with
    a character that is not a digit. *)
Definition stops_number (rest : string) : bool :=
  match rest with
  | EmptyString => true
  | String c _ => negb (Libc.isdigit c)
  end.

(** The number a decimal numeral stands for, most significant digit
    first. *)
Definition uint_nat (d : Decimal.uint) : Z :=
  Z.of_N (DecimalPos.Unsigned.of_lu (Decimal.rev d)).

(** A text that may follow a decimal number without being read as part of
    it: empty, or starting with a character that is neither a digit nor an
    [x]. *)
Definition ends_decimal (rest : string) : bool :=
  match rest with
  | EmptyString => true
  | String c _ => negb (Libc.isdigit c) && negb (Libc.is_x c)
  end.

(** A text that does not start with a dot. *)
Definition no_dot_first (rest : string) : bool :=
  match rest with
  | EmptyString => true
  | String c _ => negb (Libc.code c =? 46)
  end.

(** A character that ends the last number and is rejected after it:
    neither a digit, an [x], a dot, nor ASCII white space. *)
Definition garbage_char (ch : ascii) : bool :=
  negb (Libc.isdigit ch) && negb (Libc.is_x ch)
  && negb (Libc.code ch =? 46)
  && negb (Libc.isascii ch && Libc.isspace ch).

(** The digits 0 to 7. *)
Definition octal_char (c : ascii) : bool :=
  (48 <=? Libc.code c) && (Libc.code c <=? 55).

(** A text of digits 0 to 7 only. *)
Definition octal_digits (t : string) : bool :=
  forallb octal_char (list_ascii_of_string t).

(** The value of a text of digits in [base], most significant digit
    first. *)
Fixpoint radix_value (base : Z) (t : string) (acc : Z) : Z :=
  match t with
  | EmptyString => acc
  | String c t' => radix_value base t' (acc * base + (Libc.code c - 48))
  end.

(** Checks, for one prefix length, that [get_mask] returns the bytes of
    [mask32] and that their value is [2^32 - 2^(32 - bits)]. *)
Definition mask_value_check (bits : Z) : bool :=
  result_bytes_eqb (get_mask (with_mask bits)) (Py.be_bytes 4 (mask32 bits))
  && (be_value (Py.be_bytes 4 (mask32 bits)) =? 4294967296 - 2 ^ (32 - bits)).

(** Checks, for one prefix length, that its mask value is contained in
    the mask value of every prefix length from it to 32. *)
Definition mask_nested_check (b1 : Z) : bool :=
  forallb (fun b2 =>
             Z.land (4294967296 - 2 ^ (32 - b1)) (4294967296 - 2 ^ (32 - b2))
             =? 4294967296 - 2 ^ (32 - b1))
          (Py.range b1 33).

(** A run of FF bytes, then at most one byte of the form 11..10..0, then
    zero bytes. *)
Fixpoint ones_then_zeros (bs : list Z) : bool :=
  match bs with
  | [] => true
  | b :: rest =>
      if b =? 255 then ones_then_zeros rest
      else existsb (Z.eqb b) [0; 128; 192; 224; 240; 248; 252; 254]
           && forallb (Z.eqb 0) rest
  end.

(** Checks the shape of the bytes of [mask32] at one prefix length. *)
Definition mask_shape_check (bits : Z) : bool :=
  ones_then_zeros (map Z_of_byte (Py.be_bytes 4 (mask32 bits))).

(** The result of formatting into a unicode string. *)
Inductive text_result : Type :=
| Text (s : string)
| UnicodeDecodeError.

(** ** Python string formatting *)
Module PyFormat.

(** A byte string of ASCII characters only. *)
Definition ascii_only (s : string) : bool :=
  forallb Libc.isascii (list_ascii_of_string s).

(** The ['%s'] conversion of a byte string inside a unicode format
    ([u'...%s...' % s]): the bytes are decoded with the ASCII codec, and a
    byte above 127 is a [UnicodeDecodeError]. *)
Definition fmt_s (s : string) (k : string -> text_result) : text_result :=
  if ascii_only s then k s else UnicodeDecodeError.

End PyFormat.

(** ** The [IPBlock] model *)
Module IPBlock.

(** The fields of an [IPBlock] row.  Foreign keys are the referenced rows'
    identifiers; the parent block may be absent. *)
Record IPBlock : Type := {
  simulator : Z;
  parentIPBlock : option Z;
  org : Z;
  subnet : string;
  mask : Z
}.

(** [__unicode__]: [u'%s/%d' % (self.subnet, self.mask)]. *)
Definition __unicode__ (self : IPBlock) : text_result :=
  PyFormat.fmt_s (subnet self) (fun s =>
    Text (s ++ "/" ++ Py.fmt_d (mask self))%string).

End IPBlock.

(** ** The [Topology] model *)
Module Topology.

(** The fields of a [Topology] row. *)
Record Topology : Type := {
  id : Z;
  owner : Z;
  template : Z
}.

(** [__unicode__]: [u'Topology %d' % self.id]. *)
Definition __unicode__ (self : Topology) : string :=
  ("Topology " ++ Py.fmt_d (id self))%string.

End Topology.

(** A text without a slash. *)
Definition no_slash (s : string) : bool :=
  forallb (fun c => negb (Libc.code c =? 47)) (list_ascii_of_string s).

(** ** Rows whose address is any Python 2 string *)

(** A Python 2 string value: a byte string ([str]) or a unicode string,
    given by its code points.  The ORM hands back unicode strings for text
    columns. *)
Inductive text : Type :=
| Str (s : string)
| Unicode (u : list Z).

(** A string that the ASCII codec can encode. *)
Definition encodable (t : text) : bool :=
  match t with
  | Str _ => true
  | Unicode u => forallb (fun c => (0 <=? c) && (c <? 128)) u
  end.

(** The byte string a library function that expects one ([inet_aton],
    [hashlib.md5]) makes of its argument: a unicode string is encoded with
    the default codec, ASCII, and a character above 127 is a
    [UnicodeEncodeError]. *)
Definition as_str (t : text) : result string :=
  match t with
  | Str s => Ok s
  | Unicode u =>
      if encodable (Unicode u)
      then Ok (string_of_list_ascii (map (fun c => ascii_of_N (Z.to_N c)) u))
      else Raise UnicodeEncodeError
  end.

Module TextRow.

(** The fields of an [IPAssignment] row whose address is any string. *)
Record IPAssignment : Type := {
  topology : Z;
  port : Z;
  ip : text;
  mask : Z
}.

(** [get_ip]: [inet_aton(self.ip)]. *)
Definition get_ip (self : IPAssignment) : result (list byte) :=
  s <- as_str (ip self) ;;
  PyLib.inet_aton s.

(** [get_mac]: ['\x00' + hashlib.md5(self.ip).digest()[0:5]]. *)
Definition get_mac (self : IPAssignment) : result (list byte) :=
  s <- as_str (ip self) ;;
  Ok ([x00] ++ Py.slice_to 5 (PyLib.md5_digest s)).

End TextRow.

(** ** Saving a row *)

(** [IPAssignment] defines no [save] of its own: a row is saved by the
    [Model.save] it inherits, which writes the row as it is and does not
    check a field against its declared [choices]. *)
Definition save (table : list IPAssignment) (self : IPAssignment)
  : list IPAssignment :=
  table ++ [self].

(** ** The forms of address text *)
(** ASCII white space: space, tab, line feed, vertical tab, form feed,
    carriage return. *)
Definition white_space (c : ascii) : bool :=
  existsb (Z.eqb (Libc.code c)) [32; 9; 10; 11; 12; 13].

(** The text up to its first white-space character. *)
Fixpoint before_space (s : string) : string :=
  match s with
  | EmptyString => EmptyString
  | String c s' =>
      if white_space c then EmptyString else String c (before_space s')
  end.

(** The hexadecimal digits and their values. *)
Definition hex_char (c : ascii) : bool :=
  ((48 <=? Libc.code c) && (Libc.code c <=? 57))
  || ((65 <=? Libc.code c) && (Libc.code c <=? 70))
  || ((97 <=? Libc.code c) && (Libc.code c <=? 102)).

(** The value of a hexadecimal digit. *)
Definition hex_digit_value (c : ascii) : Z :=
  if Libc.code c <=? 57 then Libc.code c - 48
  else if Libc.code c <=? 70 then Libc.code c - 55
  else Libc.code c - 87.

(** A text of hexadecimal digits only. *)
Definition hex_digits (t : string) : bool :=
  forallb hex_char (list_ascii_of_string t).

(** The value of a text of hexadecimal digits, most significant first. *)
Fixpoint hex_value (t : string) (acc : Z) : Z :=
  match t with
  | EmptyString => acc
  | String c t' => hex_value t' (acc * 16 + hex_digit_value c)
  end.

(** The value of a number written as in C: [0x] or [0X] and hexadecimal
    digits; a leading [0] and octal digits; or decimal digits not starting
    with [0]. *)
Definition number_value (p : string) : option Z :=
  match p with
  | EmptyString => None
  | String c0 rest =>
      if Libc.code c0 =? 48 then
        match rest with
        | EmptyString => Some 0
        | String x h =>
            if (Libc.code x =? 120) || (Libc.code x =? 88) then
              match h with
              | EmptyString => None
              | String _ _ => if hex_digits h then Some (hex_value h 0) else None
              end
            else if octal_digits rest then Some (radix_value 8 rest 0)
            else None
        end
      else if all_digits p then Some (radix_value 10 p 0)
      else None
  end.

(** The values of a list when none is missing. *)
Fixpoint all_some {A : Type} (l : list (option A)) : option (list A) :=
  match l with
  | [] => Some []
  | None :: _ => None
  | Some a :: l' =>
      match all_some l' with
      | Some r => Some (a :: r)
      | None => None
      end
  end.

(** The address denoted by one to four numbers: all but the last are
    bytes, the last fills the remaining bytes, most significant first. *)
Definition address_value (vals : list Z) : option (list byte) :=
  match vals with
  | [a] =>
      if a <=? 4294967295 then Some (Py.be_bytes 4 a) else None
  | [a; b] =>
      if (a <=? 255) && (b <=? 16777215)
      then Some (byte_of_Z a :: Py.be_bytes 3 b) else None
  | [a; b; c] =>
      if (a <=? 255) && (b <=? 255) && (c <=? 65535)
      then Some (byte_of_Z a :: byte_of_Z b :: Py.be_bytes 2 c) else None
  | [a; b; c; d] =>
      if (a <=? 255) && (b <=? 255) && (c <=? 255) && (d <=? 255)
      then Some [byte_of_Z a; byte_of_Z b; byte_of_Z c; byte_of_Z d]
      else None
  | _ => None
  end.

(** The numbers of an address text: the text up to the first white space,
    cut at its dots, each part a number. *)
Definition address_numbers (s : string) : option (list Z) :=
  all_some (map number_value (split_dots (before_space s))).

(** The forms of address text of [inet_aton], as its manual describes
    them: [a.b.c.d], [a.b.c], [a.b] or [a], each number written as in C,
    optionally followed by white space (and then anything). *)
Definition inet_aton_forms (s : string) : option (list byte) :=
  match address_numbers s with
  | Some vals => address_value vals
  | None => None
  end.


(** A character that ends a part of an address text: a dot or white
    space. *)
Definition sep_char (c : ascii) : bool :=
  (Libc.code c =? 46) || white_space c.

(** The first part of a text, up to its first dot or white space, and the
    text from there on. *)
Fixpoint span_part (s : string) : string * string :=
  match s with
  | EmptyString => (EmptyString, EmptyString)
  | String c s' =>
      if sep_char c then (EmptyString, s)
      else let '(p, r) := span_part s' in (String c p, r)
  end.

(** A text without dots and white space. *)
Definition no_sep (p : string) : bool :=
  forallb (fun c => negb (sep_char c)) (list_ascii_of_string p).

(** A text that is empty or starts with a dot or white space. *)
Definition starts_sep (rest : string) : bool :=
  match rest with
  | EmptyString => true
  | String c _ => sep_char c
  end.

(** The test of the digit loop of [strtoul] on one character. *)
Definition digit_ok (base : Z) (c : ascii) : bool :=
  Libc.isxdigit c && (Libc.digit_value c <? base).

(** What [Libc.inet_aton] does with the result of its loop. *)
Definition finish (r : option (list Z * Z * string)) : option (list byte) :=
  match r with
  | None => None
  | Some (pp, val, endp) =>
      let garbage := match endp with
                     | EmptyString => false
                     | String c _ =>
                         negb (Libc.isascii c) || negb (Libc.isspace c)
                     end in
      if garbage then None
      else if val >? Libc.last_max (List.length pp) then None
      else Some (Libc.or_last pp val)
  end.

(** * Properties *)

(** ** Results *)

Lemma Ok_inj {A : Type} (a b : A) : Ok a = Ok b -> a = b.
Proof. intros H. congruence. Qed.

(** ** Range lemmas *)

Lemma In_range (lo hi x : Z) : lo <= x < hi -> In x (Py.range lo hi).
Proof.
  intros H. unfold Py.range. apply in_map_iff.
  exists (Z.to_nat (x - lo)). split; [lia|].
  apply in_seq. lia.
Qed.

Lemma range_In (lo hi x : Z) : In x (Py.range lo hi) -> lo <= x < hi.
Proof.
  unfold Py.range. intros H. apply in_map_iff in H.
  destruct H as [k [<- Hk]]. apply in_seq in Hk. lia.
Qed.

Lemma forallb_range (p : Z -> bool) (lo hi : Z) :
  forallb p (Py.range lo hi) = true ->
  forall x, lo <= x < hi -> p x = true.
Proof.
  intros H x Hx. rewrite forallb_forall in H. apply H, In_range, Hx.
Qed.

(** ** The subnet mask *)



Lemma get_mask_depends_on_mask (self : IPAssignment) :
  get_mask self = get_mask (with_mask (mask self)).
Proof. reflexivity. Qed.


Lemma result_bytes_eqb_sound r bs : result_bytes_eqb r bs = true -> r = Ok bs.
Proof.
  destruct r as [l|e]; simpl; [|discriminate].
  destruct (list_eq_dec Byte.byte_eq_dec l bs); [congruence|discriminate].
Qed.


Lemma mask_check_all : forallb mask_check (Py.range 1 33) = true.
Proof. vm_compute. reflexivity. Qed.

(** C1. For a prefix length in [1,32], [get_mask] returns four bytes that,
    read most significant byte first, are the 32-bit value
    [0xFFFFFFFF xor ((1 << (32 - bits)) - 1)], whose bit [i] (counted from
    the least significant) is set exactly when [i >= 32 - bits], that is the
    high [bits] bits are 1 and the others 0; for 24, 1 and 32 the bytes are
    FF FF FF 00, 80 00 00 00 and FF FF FF FF. *)
Theorem get_mask_prefix_length (self : IPAssignment) :
  1 <= mask self <= 32 ->
  exists bs,
    get_mask self = Ok bs /\
    List.length bs = 4%nat /\
    be_value bs = Z.lxor 4294967295 (Z.shiftl 1 (32 - mask self) - 1) /\
    (forall i, 0 <= i < 32 ->
       Z.testbit (be_value bs) i = (32 - mask self <=? i)) /\
    (mask self = 24 -> bs = [xff; xff; xff; x00]) /\
    (mask self = 1 -> bs = [x80; x00; x00; x00]) /\
    (mask self = 32 -> bs = [xff; xff; xff; xff]).
Proof.
  intros Hr.
  assert (Hc : mask_check (mask self) = true).
  { apply (forallb_range mask_check 1 33 mask_check_all). lia. }
  unfold mask_check in Hc.
  apply andb_true_iff in Hc; destruct Hc as [Hc Hbits].
  apply andb_true_iff in Hc; destruct Hc as [Hc Hval].
  apply andb_true_iff in Hc; destruct Hc as [Hc Hlen].
  apply result_bytes_eqb_sound in Hc.
  apply Nat.eqb_eq in Hlen. apply Z.eqb_eq in Hval.
  exists (Py.be_bytes 4 (mask32 (mask self))).
  rewrite get_mask_depends_on_mask.
  split; [exact Hc|]. split; [exact Hlen|]. split; [exact Hval|].
  split.
  { intros i Hi. rewrite Hval.
    apply Bool.eqb_prop. exact (forallb_range _ 0 32 Hbits i Hi). }
  split; [|split]; intros ->; reflexivity.
Qed.

Lemma get_mask_prefix_length_witness :
  exists bs,
    get_mask (with_mask 24) = Ok bs /\
    List.length bs = 4%nat /\
    be_value bs = Z.lxor 4294967295 (Z.shiftl 1 (32 - 24) - 1) /\
    (forall i, 0 <= i < 32 -> Z.testbit (be_value bs) i = (32 - 24 <=? i)) /\
    (24 = 24 -> bs = [xff; xff; xff; x00]) /\
    (24 = 1 -> bs = [x80; x00; x00; x00]) /\
    (24 = 32 -> bs = [xff; xff; xff; xff]).
Proof.
  apply (get_mask_prefix_length (with_mask 24)). simpl. lia.
Defined.


(** ** Out-of-range prefix lengths *)

Lemma lshift_negative (a n : Z) : n < 0 -> Py.lshift a n = Raise ValueError.
Proof.
  intros H. unfold Py.lshift.
  destruct (Z.ltb_spec n 0); [reflexivity|lia].
Qed.

Lemma get_mask_above_32 (self : IPAssignment) :
  32 < mask self -> get_mask self = Raise ValueError.
Proof.
  intros H. unfold get_mask. rewrite lshift_negative by lia. reflexivity.
Qed.

Lemma testbit_true_lower_bound (v n : Z) :
  0 <= n -> 0 <= v -> Z.testbit v n = true -> 2 ^ n <= v.
Proof.
  intros Hn Hv Hb.
  destruct (Z.lt_ge_cases v (2 ^ n)) as [Hlt|Hge]; [|exact Hge].
  rewrite Z.testbit_true in Hb by exact Hn.
  rewrite Z.div_small in Hb by lia. discriminate.
Qed.

Lemma mask32_negative_overflows (bits : Z) :
  bits < 0 -> 4294967295 < mask32 bits.
Proof.
  intros H. unfold mask32.
  assert (Hones : Z.shiftl 1 (32 - bits) - 1 = Z.ones (32 - bits)).
  { unfold Z.ones. lia. }
  rewrite Hones.
  assert (Hnn : 0 <= Z.lxor 4294967295 (Z.ones (32 - bits))).
  { apply Z.lxor_nonneg. split; intros _; [|lia].
    rewrite Z.ones_equiv.
    assert (0 < 2 ^ (32 - bits)) by (apply Z.pow_pos_nonneg; lia). lia. }
  assert (Hb : Z.testbit (Z.lxor 4294967295 (Z.ones (32 - bits))) 32 = true).
  { rewrite Z.lxor_spec, Z.ones_spec_low by lia. reflexivity. }
  pose proof (testbit_true_lower_bound _ 32 ltac:(lia) Hnn Hb) as Hle.
  change (2 ^ 32) with 4294967296 in Hle. lia.
Qed.

Lemma get_mask_below_0 (self : IPAssignment) :
  mask self < 0 -> get_mask self = Raise StructError.
Proof.
  intros H. unfold get_mask, Py.lshift.
  destruct (Z.ltb_spec (32 - mask self) 0); [lia|].
  cbn [bind]. unfold Py.struct_pack_BE_I.
  pose proof (mask32_negative_overflows (mask self) H) as Ho.
  unfold mask32 in Ho.
  destruct (Z.leb_spec (Z.lxor 4294967295 (Z.shiftl 1 (32 - mask self) - 1))
                       4294967295); [lia|].
  rewrite andb_false_r. reflexivity.
Qed.

Lemma be_bytes_length (n : nat) (x : Z) : List.length (Py.be_bytes n x) = n.
Proof.
  revert x. induction n as [|n IH]; intros x; simpl; [reflexivity|].
  rewrite length_app, IH. simpl. lia.
Qed.

Lemma get_mask_returns_4 (self : IPAssignment) (bs : list byte) :
  get_mask self = Ok bs -> List.length bs = 4%nat.
Proof.
  unfold get_mask.
  destruct (Py.lshift 1 (32 - mask self)) as [n|e]; cbn [bind];
    [|intros H; discriminate H].
  unfold Py.struct_pack_BE_I.
  destruct ((0 <=? Z.lxor 4294967295 (n - 1))
            && (Z.lxor 4294967295 (n - 1) <=? 4294967295));
    intros H; [|discriminate H].
  apply Ok_inj in H. subst bs. apply be_bytes_length.
Qed.

(** C2 (as stated). Prefix length 0 is outside [1,32], and [get_mask]
    does not fail on it: it returns the four zero bytes. *)
Lemma get_mask_zero_returns :
  ~ (1 <= mask (with_mask 0) <= 32) /\
  get_mask (with_mask 0) = Ok [x00; x00; x00; x00].
Proof. split; [simpl; lia|reflexivity]. Qed.

(** C2 (amended). [get_mask] fails on every prefix length above 32 (the
    shift count is negative: [ValueError]) and on every negative one (the
    value does not fit 32 bits: [struct.error]); on 0, the remaining
    integer outside [1,32], it does not fail and returns 00 00 00 00. *)
Theorem get_mask_out_of_range (self : IPAssignment) :
  mask self < 1 \/ 32 < mask self ->
  get_mask self =
    if mask self =? 0 then Ok [x00; x00; x00; x00]
    else if mask self <? 0 then Raise StructError
    else Raise ValueError.
Proof.
  intros H.
  destruct (Z.eqb_spec (mask self) 0) as [E|NE].
  - rewrite get_mask_depends_on_mask, E. reflexivity.
  - destruct (Z.ltb_spec (mask self) 0).
    + apply get_mask_below_0. assumption.
    + apply get_mask_above_32. lia.
Qed.

Lemma get_mask_out_of_range_witness :
  get_mask (with_mask 33) = Raise ValueError.
Proof.
  apply (get_mask_out_of_range (with_mask 33)). right. simpl. lia.
Defined.

(** ** MD5 *)

(** The test suite of RFC 1321 (appendix A.5); the last input takes two
    blocks. *)
Example md5_empty :
  PyLib.md5_digest ""
  = [xd4; x1d; x8c; xd9; x8f; x00; xb2; x04; xe9; x80; x09; x98; xec; xf8; x42; x7e].
Proof. vm_compute. reflexivity. Qed.

Example md5_a :
  PyLib.md5_digest "a"
  = [x0c; xc1; x75; xb9; xc0; xf1; xb6; xa8; x31; xc3; x99; xe2; x69; x77; x26; x61].
Proof. vm_compute. reflexivity. Qed.

Example md5_abc :
  PyLib.md5_digest "abc"
  = [x90; x01; x50; x98; x3c; xd2; x4f; xb0; xd6; x96; x3f; x7d; x28; xe1; x7f; x72].
Proof. vm_compute. reflexivity. Qed.

Example md5_message_digest :
  PyLib.md5_digest "message digest"
  = [xf9; x6b; x69; x7d; x7c; xb7; x93; x8d; x52; x5a; x2f; x31; xaa; xf1; x61; xd0].
Proof. vm_compute. reflexivity. Qed.

Example md5_alphabet :
  PyLib.md5_digest "abcdefghijklmnopqrstuvwxyz"
  = [xc3; xfc; xd3; xd7; x61; x92; xe4; x00; x7d; xfb; x49; x6c; xca; x67; xe1; x3b].
Proof. vm_compute. reflexivity. Qed.

Example md5_digits :
  PyLib.md5_digest "12345678901234567890123456789012345678901234567890123456789012345678901234567890"
  = [x57; xed; xf4; xa2; x2b; xe3; xc9; x55; xac; x49; xda; x2e; x21; x07; xb6; x7a].
Proof. vm_compute. reflexivity. Qed.

Lemma le_bytes_length (n : nat) (x : Z) : List.length (MD5.le_bytes n x) = n.
Proof.
  revert x. induction n as [|n IH]; intros x; [reflexivity|].
  cbn [MD5.le_bytes List.length]. rewrite IH. reflexivity.
Qed.

Lemma digest_length (msg : list byte) : List.length (MD5.digest msg) = 16%nat.
Proof.
  unfold MD5.digest.
  destruct (fold_left MD5.process_block _ MD5.init) as [[[a b] c] d].
  rewrite !length_app, !le_bytes_length. reflexivity.
Qed.

Lemma get_mac_eq (self : IPAssignment) :
  get_mac self = Ok (x00 :: firstn 5 (PyLib.md5_digest (ip self))).
Proof. reflexivity. Qed.

Lemma mac_length (s : string) :
  List.length (x00 :: firstn 5 (PyLib.md5_digest s)) = 6%nat.
Proof.
  cbn [List.length]. rewrite length_firstn.
  unfold PyLib.md5_digest. rewrite digest_length. reflexivity.
Qed.

(** C5. For every address text, [get_mac] returns one zero byte followed
    by the first five bytes of the MD5 digest of the bytes of the text: six
    bytes, the first of them 00. *)
Theorem get_mac_zero_then_md5_prefix (self : IPAssignment) :
  exists bs,
    get_mac self = Ok bs /\
    bs = [x00] ++ firstn 5 (MD5.digest (list_byte_of_string (ip self))) /\
    List.length bs = 6%nat /\
    hd_error bs = Some x00.
Proof.
  exists (x00 :: firstn 5 (PyLib.md5_digest (ip self))).
  split; [apply get_mac_eq|]. split; [reflexivity|].
  split; [apply mac_length|reflexivity].
Qed.

(** C6. [get_mac] is a function of the address text alone: two rows with
    the same text, whatever their other fields, get the same result, and no
    state is involved; for the text 10.0.0.1 both calls return the same six
    bytes 00 19 0D AF AB 69. *)
Theorem get_mac_deterministic (self other : IPAssignment) :
  ip self = ip other ->
  get_mac self = get_mac other /\
  (ip self = "10.0.0.1"%string ->
   get_mac self = Ok [x00; x19; x0d; xaf; xab; x69] /\
   get_mac other = Ok [x00; x19; x0d; xaf; xab; x69]).
Proof.
  intros E. split.
  - rewrite !get_mac_eq, E. reflexivity.
  - intros E1. rewrite !get_mac_eq, <- E, E1.
    split; vm_compute; reflexivity.
Qed.

Lemma get_mac_deterministic_witness :
  get_mac (with_ip "10.0.0.1")
  = get_mac {| topology := 7; port := 3; ip := "10.0.0.1"; mask := 8 |} /\
  (ip (with_ip "10.0.0.1") = "10.0.0.1"%string ->
   get_mac (with_ip "10.0.0.1") = Ok [x00; x19; x0d; xaf; xab; x69] /\
   get_mac {| topology := 7; port := 3; ip := "10.0.0.1"; mask := 8 |}
   = Ok [x00; x19; x0d; xaf; xab; x69]).
Proof.
  apply (get_mac_deterministic
           (with_ip "10.0.0.1")
           {| topology := 7; port := 3; ip := "10.0.0.1"; mask := 8 |}).
  reflexivity.
Defined.

(** ** Parsing an address *)

Lemma Some_inj' {A : Type} (a b : A) : Some a = Some b -> a = b.
Proof. intros H. congruence. Qed.

Lemma gtb_false (a b : Z) : a <= b -> (a >? b) = false.
Proof. intros H. rewrite Z.gtb_ltb. apply Z.ltb_ge. exact H. Qed.

Lemma inet_aton_loop_fuel (fuel : nat) :
  forall (s : string) (pp : list Z),
    (1 <= fuel)%nat ->
    (4 <= fuel + List.length pp)%nat ->
    Libc.inet_aton_loop (S fuel) s pp = Libc.inet_aton_loop fuel s pp.
Proof.
  induction fuel as [|fuel IH]; intros s pp H1 H4; [lia|].
  destruct s as [|c s']; [reflexivity|].
  cbn [Libc.inet_aton_loop].
  destruct (negb (Libc.isdigit c)); [reflexivity|].
  destruct (Libc.strtoul_base0 (String c s')) as [ul endp].
  destruct (ul >? 4294967295); [reflexivity|].
  destruct endp as [|d cp']; [reflexivity|].
  destruct (Libc.code d =? 46); [|reflexivity].
  destruct (Nat.ltb_spec 2 (List.length pp)) as [Hp|Hp]; [reflexivity|].
  cbn [orb]. destruct (ul >? 255); [reflexivity|].
  apply IH; [lia|]. rewrite length_app. cbn [List.length]. lia.
Qed.

(** The four rounds of [Libc.inet_aton] are all the loop can take: more
    fuel changes nothing. *)
Lemma inet_aton_loop_enough (k : nat) (s : string) :
  Libc.inet_aton_loop (4 + k) s [] = Libc.inet_aton_loop 4 s [].
Proof.
  induction k as [|k IH]; [reflexivity|].
  replace (4 + S k)%nat with (S (4 + k)) by lia.
  rewrite inet_aton_loop_fuel by (cbn [List.length]; lia). exact IH.
Qed.

Lemma isdigit_scans (c : ascii) :
  Libc.isdigit c = true ->
  Libc.isxdigit c && (Libc.digit_value c <? 10) = true.
Proof.
  intros H. unfold Libc.isxdigit, Libc.digit_value. rewrite H.
  cbn [orb andb]. unfold Libc.isdigit in H.
  apply andb_true_iff in H. destruct H as [_ H]. apply Z.leb_le in H.
  apply Z.ltb_lt. lia.
Qed.


Lemma scan_digits_stops (base acc : Z) (rest : string) :
  ends_number rest -> Libc.scan_digits base rest acc = (acc, rest).
Proof.
  intros [-> | [r ->]]; reflexivity.
Qed.

Lemma scan_digits_app (t rest : string) :
  all_digits t = true ->
  ends_number rest ->
  forall acc,
    Libc.scan_digits 10 (t ++ rest) acc
    = (fst (Libc.scan_digits 10 t acc), rest).
Proof.
  intros Ht Hr. induction t as [|c t IH]; intros acc.
  - cbn [append]. rewrite scan_digits_stops by exact Hr. reflexivity.
  - unfold all_digits in Ht. cbn [list_ascii_of_string forallb] in Ht.
    apply andb_true_iff in Ht. destruct Ht as [Hc Ht].
    cbn [append Libc.scan_digits].
    rewrite (isdigit_scans c Hc). apply IH. exact Ht.
Qed.

Lemma octet_check_all : forallb octet_check (Py.range 0 256) = true.
Proof. vm_compute. reflexivity. Qed.


Lemma octet_facts_of_range (a : Z) : 0 <= a <= 255 -> octet_facts a.
Proof.
  intros Ha.
  assert (H : octet_check a = true).
  { apply (forallb_range octet_check 0 256 octet_check_all). lia. }
  unfold octet_check in H. cbv zeta in H.
  repeat (apply andb_true_iff in H;
          let H' := fresh "F" in destruct H as [H H']).
  constructor.
  - exact H.
  - assumption.
  - apply negb_true_iff. assumption.
  - apply Z.eqb_eq. assumption.
  - destruct (Py.fmt_d a) as [|c0 t']; [discriminate|].
    destruct (Libc.code c0 =? 48); [assumption|exact I].
  - apply Z.eqb_eq. assumption.
  - apply Z.eqb_eq. assumption.
  - apply Z.eqb_eq. assumption.
  - apply Z.eqb_eq. assumption.
  - apply Z.eqb_eq. assumption.
Qed.

Lemma strtoul_zero (rest : string) :
  ends_number rest ->
  Libc.strtoul_base0 ("0" ++ rest) = (0, rest).
Proof.
  intros [-> | [r ->]]; [reflexivity|].
  destruct r as [|h tl]; reflexivity.
Qed.

Lemma strtoul_octet (a : Z) (rest : string) :
  0 <= a <= 255 ->
  ends_number rest ->
  Libc.strtoul_base0 (Py.fmt_d a ++ rest) = (a, rest).
Proof.
  intros Ha Hr. destruct (octet_facts_of_range a Ha) as [Hd _ _ Hv Hz _ _ _ _ _].
  destruct (Py.fmt_d a) as [|c0 t'] eqn:Et; [contradiction|].
  destruct (Libc.code c0 =? 48) eqn:E0.
  - apply String.eqb_eq in Hz. rewrite Hz in *.
    rewrite strtoul_zero by exact Hr. cbn in Hv. rewrite <- Hv. reflexivity.
  - cbn [append Libc.strtoul_base0]. rewrite E0.
    change (String c0 (t' ++ rest)) with (String c0 t' ++ rest)%string.
    rewrite scan_digits_app by assumption. rewrite Hv. reflexivity.
Qed.

Lemma first_digit_app (t rest : string) :
  first_is_digit t = true ->
  exists c s, (t ++ rest)%string = String c s /\ Libc.isdigit c = true.
Proof.
  destruct t as [|c t']; [discriminate|].
  intros H. exists c, (t' ++ rest)%string. split; [reflexivity|exact H].
Qed.

Lemma inet_aton_loop_dot (fuel : nat) (a : Z) (rest : string) (pp : list Z) :
  0 <= a <= 255 ->
  (List.length pp <= 2)%nat ->
  Libc.inet_aton_loop (S fuel) (Py.fmt_d a ++ String "." rest) pp
  = Libc.inet_aton_loop fuel rest (pp ++ [a]).
Proof.
  intros Ha Hp.
  pose proof (strtoul_octet a (String "." rest) Ha
                (or_intror (ex_intro _ rest eq_refl))) as Hs.
  destruct (first_digit_app (Py.fmt_d a) (String "." rest)
              (of_first a (octet_facts_of_range a Ha))) as [c [s [E Hc]]].
  rewrite E in *. cbn [Libc.inet_aton_loop]. rewrite Hc. cbn [negb].
  rewrite Hs. rewrite gtb_false by lia.
  change (Libc.code "." =? 46) with true. cbv iota.
  rewrite (gtb_false a 255) by lia.
  destruct (Nat.ltb_spec 2 (List.length pp)); [lia|]. reflexivity.
Qed.

Lemma inet_aton_loop_last (fuel : nat) (a : Z) (pp : list Z) :
  0 <= a <= 255 ->
  Libc.inet_aton_loop (S fuel) (Py.fmt_d a) pp = Some (pp, a, EmptyString).
Proof.
  intros Ha.
  pose proof (strtoul_octet a EmptyString Ha (or_introl eq_refl)) as Hs.
  destruct (first_digit_app (Py.fmt_d a) EmptyString
              (of_first a (octet_facts_of_range a Ha))) as [c [s [E Hc]]].
  assert (E' : (Py.fmt_d a ++ "")%string = Py.fmt_d a).
  { clear. induction (Py.fmt_d a) as [|x t IH]; [reflexivity|].
    cbn [append]. rewrite IH. reflexivity. }
  rewrite E' in *. rewrite E in *.
  cbn [Libc.inet_aton_loop]. rewrite Hc. cbn [negb].
  rewrite Hs. rewrite gtb_false by lia. reflexivity.
Qed.

Lemma or_last_octets (a b c d : Z) :
  0 <= d <= 255 ->
  Libc.or_last [a; b; c] d
  = [byte_of_Z a; byte_of_Z b; byte_of_Z c; byte_of_Z d].
Proof.
  intros Hd. destruct (octet_facts_of_range d Hd) as [_ _ _ _ _ _ H24 H16 H8 H0].
  unfold Libc.or_last. cbn [map seq nth Nat.sub].
  change (8 * Z.of_nat 3) with 24. change (8 * Z.of_nat 2) with 16.
  change (8 * Z.of_nat 1) with 8. change (8 * Z.of_nat 0) with 0.
  rewrite H24, H16, H8, H0, !Z.lor_0_r, Z.lor_0_l. reflexivity.
Qed.

Lemma quad_text_eq (a b c d : Z) :
  quad_text a b c d
  = (Py.fmt_d a ++ String "." (Py.fmt_d b ++ String "."
       (Py.fmt_d c ++ String "." (Py.fmt_d d))))%string.
Proof. reflexivity. Qed.

Lemma libc_inet_aton_quad (a b c d : Z) :
  0 <= a <= 255 -> 0 <= b <= 255 -> 0 <= c <= 255 -> 0 <= d <= 255 ->
  Libc.inet_aton (quad_text a b c d)
  = Some [byte_of_Z a; byte_of_Z b; byte_of_Z c; byte_of_Z d].
Proof.
  intros Ha Hb Hc Hd. unfold Libc.inet_aton. rewrite quad_text_eq.
  rewrite inet_aton_loop_dot by (cbn [List.length]; lia).
  rewrite inet_aton_loop_dot by (cbn [List.length app]; lia).
  rewrite inet_aton_loop_dot by (cbn [List.length app]; lia).
  rewrite inet_aton_loop_last by lia.
  cbn [app List.length]. cbv iota beta.
  change (Libc.last_max 3) with 255.
  rewrite gtb_false by lia.
  rewrite or_last_octets by lia. reflexivity.
Qed.

Lemma has_nul_app (s t : string) :
  PyLib.has_nul (s ++ t) = PyLib.has_nul s || PyLib.has_nul t.
Proof.
  induction s as [|c s IH]; [reflexivity|].
  cbn [append PyLib.has_nul]. rewrite IH, orb_assoc. reflexivity.
Qed.

Lemma has_nul_quad (a b c d : Z) :
  0 <= a <= 255 -> 0 <= b <= 255 -> 0 <= c <= 255 -> 0 <= d <= 255 ->
  PyLib.has_nul (quad_text a b c d) = false.
Proof.
  intros Ha Hb Hc Hd. unfold quad_text. rewrite !has_nul_app.
  rewrite (of_nul a (octet_facts_of_range a Ha)),
          (of_nul b (octet_facts_of_range b Hb)),
          (of_nul c (octet_facts_of_range c Hc)),
          (of_nul d (octet_facts_of_range d Hd)).
  reflexivity.
Qed.

Lemma inet_aton_quad (a b c d : Z) :
  0 <= a <= 255 -> 0 <= b <= 255 -> 0 <= c <= 255 -> 0 <= d <= 255 ->
  PyLib.inet_aton (quad_text a b c d)
  = Ok [byte_of_Z a; byte_of_Z b; byte_of_Z c; byte_of_Z d].
Proof.
  intros Ha Hb Hc Hd. unfold PyLib.inet_aton.
  rewrite has_nul_quad, libc_inet_aton_quad by assumption. reflexivity.
Qed.

Lemma libc_inet_aton_length (s : string) (bs : list byte) :
  Libc.inet_aton s = Some bs -> List.length bs = 4%nat.
Proof.
  unfold Libc.inet_aton.
  destruct (Libc.inet_aton_loop 4 s []) as [[[pp val] endp]|];
    [|intros H; discriminate H].
  cbv zeta.
  destruct (match endp with
            | EmptyString => false
            | String c _ => negb (Libc.isascii c) || negb (Libc.isspace c)
            end); [intros H; discriminate H|].
  destruct (val >? Libc.last_max (List.length pp)); intros H;
    [discriminate H|].
  apply Some_inj' in H. subst bs. unfold Libc.or_last.
  rewrite length_map, length_seq. reflexivity.
Qed.

Lemma get_ip_returns_4 (self : IPAssignment) (bs : list byte) :
  get_ip self = Ok bs -> List.length bs = 4%nat.
Proof.
  unfold get_ip, PyLib.inet_aton.
  destruct (PyLib.has_nul (ip self)); [intros H; discriminate H|].
  destruct (Libc.inet_aton (ip self)) as [l|] eqn:E; intros H;
    [|discriminate H].
  apply Ok_inj in H. subst l. exact (libc_inet_aton_length _ _ E).
Qed.

Lemma libc_inet_aton_needs_digit (s : string) :
  first_is_digit s = false -> Libc.inet_aton s = None.
Proof.
  intros H. unfold Libc.inet_aton.
  destruct s as [|c s']; [reflexivity|].
  cbn [first_is_digit] in H. cbn [Libc.inet_aton_loop]. rewrite H.
  reflexivity.
Qed.

Lemma get_ip_needs_digit (self : IPAssignment) :
  first_is_digit (ip self) = false -> raises (get_ip self).
Proof.
  intros H. unfold get_ip, PyLib.inet_aton.
  destruct (PyLib.has_nul (ip self)); [exists TypeError; reflexivity|].
  rewrite libc_inet_aton_needs_digit by exact H.
  exists SocketError. reflexivity.
Qed.

Lemma be_value_octets (a b c d : Z) :
  0 <= a <= 255 -> 0 <= b <= 255 -> 0 <= c <= 255 -> 0 <= d <= 255 ->
  be_value [byte_of_Z a; byte_of_Z b; byte_of_Z c; byte_of_Z d]
  = a * 16777216 + b * 65536 + c * 256 + d.
Proof.
  intros Ha Hb Hc Hd. unfold be_value. cbn [fold_left].
  rewrite (of_byte a (octet_facts_of_range a Ha)),
          (of_byte b (octet_facts_of_range b Hb)),
          (of_byte c (octet_facts_of_range c Hc)),
          (of_byte d (octet_facts_of_range d Hd)).
  ring.
Qed.

(** C3 (as stated). The text 127.1 is not a dotted quad, and [get_ip]
    does not fail on it: [inet_aton] reads it as 127.0.0.1.  The text
    09.0.0.1 is a dotted quad of decimal numbers, and [get_ip] fails on it:
    a leading zero announces an octal number. *)
Lemma get_ip_short_form_accepted :
  dotted_quad "127.1" = false /\
  get_ip (with_ip "127.1") = Ok [x7f; x00; x00; x01] /\
  dotted_quad "09.0.0.1" = true /\
  get_ip (with_ip "09.0.0.1") = Raise SocketError.
Proof. repeat split; vm_compute; reflexivity. Qed.

(** ** Round trip *)

Lemma decimal_value_nonneg (s : string) :
  forall acc v, 0 <= acc -> decimal_value s acc = Some v -> 0 <= v.
Proof.
  induction s as [|c s IH]; intros acc v Hacc H.
  - cbn [decimal_value] in H. apply Some_inj' in H. lia.
  - cbn [decimal_value] in H.
    destruct (Libc.isdigit c) eqn:Hc; [|discriminate H].
    unfold Libc.isdigit in Hc. apply andb_true_iff in Hc.
    destruct Hc as [Hc _]. apply Z.leb_le in Hc.
    apply (IH (10 * acc + (Libc.code c - 48)) v); [lia|exact H].
Qed.

Lemma part_value_range (p : string) (v : Z) :
  part_value p = Some v -> 0 <= v <= 255.
Proof.
  unfold part_value.
  destruct ((1 <=? String.length p)%nat && (String.length p <=? 3)%nat);
    [|intros H; discriminate H].
  destruct (decimal_value p 0) as [w|] eqn:E; [|intros H; discriminate H].
  destruct (Z.leb_spec w 255) as [Hw|Hw]; intros H; [|discriminate H].
  apply Some_inj' in H. subst w.
  split; [apply (decimal_value_nonneg p 0 v); [lia|exact E]|assumption].
Qed.

Lemma parse_quad_range (s : string) (a b c d : Z) :
  parse_quad s = Some (a, b, c, d) ->
  0 <= a <= 255 /\ 0 <= b <= 255 /\ 0 <= c <= 255 /\ 0 <= d <= 255.
Proof.
  unfold parse_quad.
  destruct (split_dots s) as [|p1 [|p2 [|p3 [|p4 [|p5 ps]]]]];
    try (intros H; discriminate H).
  destruct (part_value p1) as [a'|] eqn:E1; [|intros H; discriminate H].
  destruct (part_value p2) as [b'|] eqn:E2; [|intros H; discriminate H].
  destruct (part_value p3) as [c'|] eqn:E3; [|intros H; discriminate H].
  destruct (part_value p4) as [d'|] eqn:E4; [|intros H; discriminate H].
  intros H. apply Some_inj' in H.
  assert (a' = a /\ b' = b /\ c' = c /\ d' = d) as (-> & -> & -> & ->)
    by (repeat split; congruence).
  repeat split; eapply part_value_range; eassumption.
Qed.

Lemma render_octets (a b c d : Z) :
  0 <= a <= 255 -> 0 <= b <= 255 -> 0 <= c <= 255 -> 0 <= d <= 255 ->
  render [byte_of_Z a; byte_of_Z b; byte_of_Z c; byte_of_Z d]
  = quad_text a b c d.
Proof.
  intros Ha Hb Hc Hd. unfold render. cbn [map String.concat].
  rewrite (of_byte a (octet_facts_of_range a Ha)),
          (of_byte b (octet_facts_of_range b Hb)),
          (of_byte c (octet_facts_of_range c Hc)),
          (of_byte d (octet_facts_of_range d Hd)).
  reflexivity.
Qed.

(** C4 (as stated). The text 010.0.0.1 is a dotted quad; without its
    leading zero it is 10.0.0.1.  [get_ip] reads the first part as an octal
    number and returns 08 00 00 01, which renders as 8.0.0.1. *)
Lemma get_ip_leading_zero_is_octal :
  dotted_quad "010.0.0.1" = true /\
  canonical_form "010.0.0.1" = "10.0.0.1"%string /\
  get_ip (with_ip "010.0.0.1") = Ok [x08; x00; x00; x01] /\
  render [x08; x00; x00; x01] = "8.0.0.1"%string /\
  render [x08; x00; x00; x01] <> canonical_form "010.0.0.1".
Proof.
  repeat split; try (vm_compute; reflexivity).
  vm_compute. intros H. discriminate H.
Qed.

(** C4 (amended). For every dotted quad written without leading zeros
    (a text that is its own canonical form), [get_ip] returns four bytes
    whose rendering as dotted-quad text is the text itself. *)
Theorem get_ip_round_trip (self : IPAssignment) :
  dotted_quad (ip self) = true ->
  canonical_form (ip self) = ip self ->
  exists bs,
    get_ip self = Ok bs /\
    List.length bs = 4%nat /\
    render bs = ip self.
Proof.
  unfold dotted_quad, canonical_form.
  destruct (parse_quad (ip self)) as [[[[a b] c] d]|] eqn:E;
    [|intros H; discriminate H].
  intros _ Hs.
  destruct (parse_quad_range _ _ _ _ _ E) as (Ha & Hb & Hc & Hd).
  exists [byte_of_Z a; byte_of_Z b; byte_of_Z c; byte_of_Z d].
  split; [|split].
  - unfold get_ip. rewrite <- Hs. apply inet_aton_quad; assumption.
  - reflexivity.
  - rewrite render_octets by assumption. exact Hs.
Qed.

Lemma get_ip_round_trip_witness :
  exists bs,
    get_ip (with_ip "192.168.0.1") = Ok bs /\
    List.length bs = 4%nat /\
    render bs = ip (with_ip "192.168.0.1").
Proof.
  apply (get_ip_round_trip (with_ip "192.168.0.1")); vm_compute; reflexivity.
Defined.

(** ** Invalid input *)


Lemma mask_nonzero_check_all :
  forallb mask_nonzero_check (Py.range 1 33) = true.
Proof. vm_compute. reflexivity. Qed.

Lemma result_bytes_eqb_complete (r : result (list byte)) (bs : list byte) :
  r = Ok bs -> result_bytes_eqb r bs = true.
Proof.
  intros ->. unfold result_bytes_eqb.
  destruct (list_eq_dec Byte.byte_eq_dec bs bs); [reflexivity|contradiction].
Qed.

Lemma get_mask_zero_bytes (self : IPAssignment) :
  get_mask self = Ok [x00; x00; x00; x00] -> mask self = 0.
Proof.
  intros H.
  destruct (Z.lt_ge_cases (mask self) 0) as [Hneg|H0].
  { rewrite get_mask_below_0 in H by exact Hneg. discriminate H. }
  destruct (Z.lt_ge_cases 32 (mask self)) as [Hbig|H32].
  { rewrite get_mask_above_32 in H by exact Hbig. discriminate H. }
  destruct (Z.eq_dec (mask self) 0) as [E|NE]; [exact E|].
  assert (Hc : mask_nonzero_check (mask self) = true).
  { apply (forallb_range _ 1 33 mask_nonzero_check_all). lia. }
  unfold mask_nonzero_check in Hc.
  rewrite get_mask_depends_on_mask in H.
  rewrite (result_bytes_eqb_complete _ _ H) in Hc. discriminate Hc.
Qed.

(** C8 (as stated). Invalid input on which the helpers return a value
    instead of raising: [get_mac] on the text not-an-ip, [get_mask] on
    the prefix length 0 (the result is all zeros), [get_ip] on the text
    127.1. *)
Lemma helpers_accept_invalid_input :
  (dotted_quad "not-an-ip" = false /\
   get_mac (with_ip "not-an-ip") = Ok [x00; x4f; xa1; xb8; x41; x2a]) /\
  (~ (1 <= mask (with_mask 0) <= 32) /\
   get_mask (with_mask 0) = Ok [x00; x00; x00; x00]) /\
  (dotted_quad "127.1" = false /\
   get_ip (with_ip "127.1") = Ok [x7f; x00; x00; x01]).
Proof.
  split; [|split]; split; try (vm_compute; reflexivity).
  cbn [mask with_mask]. lia.
Qed.

(** ** The mask field *)

Lemma mask_choices_keys : map fst mask_choices = Py.range 1 33.
Proof.
  unfold mask_choices. rewrite map_map. cbn [fst]. apply map_id.
Qed.

Lemma mask_choice_iff (i : Z) : In i (map fst mask_choices) <-> 1 <= i <= 32.
Proof.
  rewrite mask_choices_keys. split.
  - intros H. apply range_In in H. lia.
  - intros H. apply In_range. lia.
Qed.

(** * Further properties *)

(** ** Decimal numbers in address text *)

Lemma not_digit_stops (base : Z) (c : ascii) :
  base <= 10 -> Libc.isdigit c = false ->
  Libc.isxdigit c && (Libc.digit_value c <? base) = false.
Proof.
  intros Hb Hc. unfold Libc.isxdigit, Libc.digit_value. rewrite Hc.
  cbn [orb].
  destruct (Z.leb_spec 97 (Libc.code c)) as [H97|H97].
  - destruct (Z.ltb_spec (Libc.code c - 87) base); [lia|].
    apply andb_false_r.
  - cbn [andb orb].
    destruct (Z.leb_spec 65 (Libc.code c)) as [H65|H65]; cbn [andb];
      [|reflexivity].
    destruct (Z.ltb_spec (Libc.code c - 55) base); [lia|].
    apply andb_false_r.
Qed.

Lemma scan_digits_stops_number (base acc : Z) (rest : string) :
  base <= 10 -> stops_number rest = true ->
  Libc.scan_digits base rest acc = (acc, rest).
Proof.
  intros Hb Hr. destruct rest as [|c r]; [reflexivity|].
  cbn [stops_number] in Hr. apply negb_true_iff in Hr.
  cbn [Libc.scan_digits]. rewrite (not_digit_stops base c Hb Hr). reflexivity.
Qed.

Lemma uint_nat_cons (k : N) (f : Decimal.uint -> Decimal.uint) (l : Decimal.uint) :
  (forall x, Decimal.revapp (f x) Decimal.Nil = Decimal.revapp x (f Decimal.Nil)) ->
  DecimalPos.Unsigned.of_lu (f Decimal.Nil) = k ->
  uint_nat (f l) = Z.of_N k * 10 ^ Z.of_N (DecimalPos.Unsigned.usize l) + uint_nat l.
Proof.
  intros Hf Hk. unfold uint_nat, Decimal.rev. rewrite Hf.
  rewrite DecimalPos.Unsigned.of_lu_revapp, Hk.
  rewrite N2Z.inj_add, N2Z.inj_mul, N2Z.inj_pow. unfold Decimal.rev.
  change (Z.of_N 10) with 10. lia.
Qed.

Lemma scan_uint (d : Decimal.uint) :
  forall (rest : string) (acc : Z),
    stops_number rest = true ->
    Libc.scan_digits 10 (NilEmpty.string_of_uint d ++ rest) acc
    = (acc * 10 ^ Z.of_N (DecimalPos.Unsigned.usize d) + uint_nat d, rest).
Proof.
  induction d as [|d IH|d IH|d IH|d IH|d IH|d IH|d IH|d IH|d IH|d IH];
    intros rest acc Hr.
  1: { cbn [NilEmpty.string_of_uint append].
       rewrite scan_digits_stops_number by (assumption || lia).
       f_equal. unfold uint_nat. cbn. lia. }
  all: cbn [NilEmpty.string_of_uint append Libc.scan_digits];
    match goal with
    | |- context [Libc.isxdigit ?c && (Libc.digit_value ?c <? 10)] =>
        change (Libc.isxdigit c && (Libc.digit_value c <? 10)) with true;
        let v := eval vm_compute in (Libc.digit_value c) in
        change (Libc.digit_value c) with v
    end;
    cbv iota; rewrite IH by exact Hr; f_equal;
    cbn [DecimalPos.Unsigned.usize]; rewrite N2Z.inj_succ, Z.pow_succ_r by lia.
  all: match goal with
       | |- context [uint_nat (?f ?x)] =>
           rewrite (uint_nat_cons (DecimalPos.Unsigned.of_lu (f Decimal.Nil)) f x
                      (fun y => eq_refl) eq_refl)
       end; cbn [DecimalPos.Unsigned.of_lu]; lia.
Qed.

Lemma ends_decimal_stops (rest : string) :
  ends_decimal rest = true -> stops_number rest = true.
Proof.
  destruct rest as [|c r]; [reflexivity|]. cbn [ends_decimal stops_number].
  intros H. apply andb_true_iff in H. apply H.
Qed.

Lemma fmt_d_pos (p : positive) :
  Py.fmt_d (Zpos p) = NilEmpty.string_of_uint (Pos.to_uint p).
Proof.
  unfold Py.fmt_d. cbn [Z.to_int NilZero.string_of_int].
  unfold NilZero.string_of_uint.
  pose proof (DecimalPos.Unsigned.to_uint_nonnil p) as Hn.
  destruct (Pos.to_uint p); [contradiction|reflexivity..].
Qed.

Lemma uint_nat_to_uint (p : positive) : uint_nat (Pos.to_uint p) = Zpos p.
Proof.
  unfold uint_nat. rewrite <- DecimalPos.Unsigned.of_uint_alt, DecimalPos.Unsigned.of_to.
  reflexivity.
Qed.

Lemma to_uint_no_leading_zero (p : positive) (l : Decimal.uint) :
  Pos.to_uint p <> Decimal.D0 l.
Proof.
  intros E.
  pose proof (DecimalPos.Unsigned.to_of (Pos.to_uint p)) as H.
  rewrite DecimalPos.Unsigned.of_to in H. cbn [N.to_uint] in H.
  rewrite E in H. rewrite DecimalFacts.unorm_D0 in H.
  destruct l as [|l|l|l|l|l|l|l|l|l|l].
  1: { apply (DecimalPos.Unsigned.to_uint_nonzero p). exact E. }
  all: match goal with
       | H : Decimal.D0 ?u = Decimal.unorm ?u |- _ =>
           pose proof (DecimalFacts.nb_digits_unorm u ltac:(discriminate)) as Hd;
           rewrite <- H in Hd; cbn [Decimal.nb_digits] in Hd; lia
       end.
Qed.

Lemma uint_text_digits (d : Decimal.uint) :
  all_digits (NilEmpty.string_of_uint d) = true /\
  PyLib.has_nul (NilEmpty.string_of_uint d) = false.
Proof.
  unfold all_digits.
  induction d as [|d IH|d IH|d IH|d IH|d IH|d IH|d IH|d IH|d IH|d IH];
    [split; reflexivity|..];
    destruct IH as [IH1 IH2];
    cbn [NilEmpty.string_of_uint list_ascii_of_string forallb PyLib.has_nul];
    rewrite IH1, IH2; split; reflexivity.
Qed.

Lemma fmt_d_first (n : Z) :
  0 <= n ->
  exists c s,
    Py.fmt_d n = String c s /\ Libc.isdigit c = true /\
    ((Libc.code c =? 48) = true -> n = 0).
Proof.
  intros Hn. destruct n as [|p|p]; [|..|lia].
  - exists "0"%char, EmptyString. repeat split.
  - rewrite fmt_d_pos.
    pose proof (to_uint_no_leading_zero p) as Hz.
    pose proof (DecimalPos.Unsigned.to_uint_nonnil p) as Hnil.
    destruct (Pos.to_uint p) as [|l|l|l|l|l|l|l|l|l|l];
      [contradiction|exfalso; apply (Hz l); reflexivity|..];
      cbn [NilEmpty.string_of_uint]; eexists; eexists;
      (split; [reflexivity|split; [reflexivity|intros H; discriminate H]]).
Qed.

Lemma fmt_d_no_nul (n : Z) : 0 <= n -> PyLib.has_nul (Py.fmt_d n) = false.
Proof.
  intros Hn. destruct n as [|p|p]; [reflexivity| |lia].
  rewrite fmt_d_pos. apply uint_text_digits.
Qed.

Lemma strtoul_decimal (n : Z) (rest : string) :
  0 <= n ->
  ends_decimal rest = true ->
  Libc.strtoul_base0 (Py.fmt_d n ++ rest) = (n, rest).
Proof.
  intros Hn Hr. pose proof (ends_decimal_stops rest Hr) as Hs.
  destruct n as [|p|p]; [| |lia].
  - change (Py.fmt_d 0) with "0"%string. cbn [append].
    assert (E : Libc.scan_digits 8 (String "0" rest) 0 = (0, rest)).
    { cbn [Libc.scan_digits].
      change (Libc.isxdigit "0" && (Libc.digit_value "0" <? 8)) with true.
      cbv iota. change (0 * 8 + Libc.digit_value "0") with 0.
      apply scan_digits_stops_number; [lia|exact Hs]. }
    unfold Libc.strtoul_base0. change (Libc.code "0" =? 48) with true.
    cbv iota.
    destruct rest as [|x [|h tl]]; try exact E.
    cbn [ends_decimal] in Hr. apply andb_true_iff in Hr.
    destruct Hr as [_ Hx]. apply negb_true_iff in Hx. rewrite Hx.
    cbn [andb]. exact E.
  - destruct (fmt_d_first (Zpos p) Hn) as [c [s [E [Hc H0]]]].
    destruct (Libc.code c =? 48) eqn:E48; [specialize (H0 eq_refl); lia|].
    rewrite E. cbn [append Libc.strtoul_base0]. rewrite E48.
    change (String c (s ++ rest)) with (String c s ++ rest)%string.
    rewrite <- E, fmt_d_pos, scan_uint by exact Hs.
    rewrite uint_nat_to_uint. reflexivity.
Qed.

Lemma ends_decimal_dot (rest : string) : ends_decimal (String "." rest) = true.
Proof. reflexivity. Qed.

Lemma fmt_d_app_first (n : Z) (rest : string) :
  0 <= n ->
  exists c s, (Py.fmt_d n ++ rest)%string = String c s /\ Libc.isdigit c = true.
Proof.
  intros Hn. destruct (fmt_d_first n Hn) as [c [s [E [Hc _]]]].
  exists c, (s ++ rest)%string. rewrite E. split; [reflexivity|exact Hc].
Qed.

Lemma inet_aton_loop_number_dot (fuel : nat) (n : Z) (rest : string)
      (pp : list Z) :
  0 <= n ->
  Libc.inet_aton_loop (S fuel) (Py.fmt_d n ++ String "." rest) pp
  = if (2 <? List.length pp)%nat || (n >? 255) then None
    else Libc.inet_aton_loop fuel rest (pp ++ [n]).
Proof.
  intros Hn.
  pose proof (strtoul_decimal n (String "." rest) Hn (ends_decimal_dot rest))
    as Hs.
  destruct (fmt_d_app_first n (String "." rest) Hn) as [c [s [E Hc]]].
  rewrite E in *. cbn [Libc.inet_aton_loop]. rewrite Hc. cbn [negb].
  rewrite Hs. change (Libc.code "." =? 46) with true. cbv iota.
  destruct (Z.gtb_spec n 4294967295) as [Hbig|Hsmall]; [|reflexivity].
  destruct (Z.gtb_spec n 255); [|lia]. rewrite orb_true_r. reflexivity.
Qed.

Lemma inet_aton_loop_number_end (fuel : nat) (n : Z) (rest : string)
      (pp : list Z) :
  0 <= n ->
  ends_decimal rest = true ->
  no_dot_first rest = true ->
  Libc.inet_aton_loop (S fuel) (Py.fmt_d n ++ rest) pp
  = if n >? 4294967295 then None else Some (pp, n, rest).
Proof.
  intros Hn Hr Hd.
  pose proof (strtoul_decimal n rest Hn Hr) as Hs.
  destruct (fmt_d_app_first n rest Hn) as [c [s [E Hc]]].
  rewrite E in *. cbn [Libc.inet_aton_loop]. rewrite Hc. cbn [negb].
  rewrite Hs. destruct (n >? 4294967295); [reflexivity|].
  destruct rest as [|x r]; [reflexivity|].
  cbn [no_dot_first] in Hd. apply negb_true_iff in Hd. rewrite Hd.
  reflexivity.
Qed.

Lemma append_empty (s : string) : (s ++ "")%string = s.
Proof.
  induction s as [|c s IH]; [reflexivity|]. cbn [append]. rewrite IH.
  reflexivity.
Qed.

Lemma append_assoc (s t u : string) :
  ((s ++ t) ++ u)%string = (s ++ (t ++ u))%string.
Proof.
  induction s as [|c s IH]; [reflexivity|]. cbn [append]. rewrite IH.
  reflexivity.
Qed.

(** ** Bytes and big-endian values *)

Lemma byte_of_Z_value (z : Z) : Z_of_byte (byte_of_Z z) = z mod 256.
Proof.
  unfold byte_of_Z, Z_of_byte.
  assert (Hr : 0 <= z mod 256 < 256) by (apply Z.mod_pos_bound; lia).
  destruct (Byte.of_N (Z.to_N (z mod 256))) as [b|] eqn:E.
  - apply Byte.to_of_N in E. rewrite E. lia.
  - apply Byte.of_N_None_iff in E. lia.
Qed.

Lemma Z_of_byte_range (b : byte) : 0 <= Z_of_byte b < 256.
Proof.
  unfold Z_of_byte. pose proof (Byte.to_N_bounded b). lia.
Qed.

Lemma byte_of_Z_of_byte (b : byte) : byte_of_Z (Z_of_byte b) = b.
Proof.
  unfold byte_of_Z, Z_of_byte.
  pose proof (Byte.to_N_bounded b).
  rewrite Z.mod_small by lia. rewrite N2Z.id, Byte.of_to_N. reflexivity.
Qed.

Lemma be_bytes_4 (n : Z) :
  Py.be_bytes 4 n
  = [byte_of_Z (Z.land (Z.shiftr n 24) 255);
     byte_of_Z (Z.land (Z.shiftr n 16) 255);
     byte_of_Z (Z.land (Z.shiftr n 8) 255);
     byte_of_Z (Z.land n 255)].
Proof.
  cbn [Py.be_bytes app]. rewrite !Z.shiftr_shiftr by lia. reflexivity.
Qed.

Lemma land_255 (x : Z) : Z.land x 255 = x mod 256.
Proof. change 255 with (Z.ones 8). rewrite Z.land_ones by lia. reflexivity. Qed.

Lemma be_value_be_bytes_4 (n : Z) :
  0 <= n <= 4294967295 -> be_value (Py.be_bytes 4 n) = n.
Proof.
  intros Hn. rewrite be_bytes_4. unfold be_value. cbn [fold_left].
  rewrite !byte_of_Z_value, !land_255, !Z.mod_mod by lia.
  rewrite !Z.shiftr_div_pow2 by lia.
  change (2 ^ 24) with 16777216. change (2 ^ 16) with 65536.
  change (2 ^ 8) with 256.
  pose proof (Z.div_mod n 256 ltac:(lia)).
  pose proof (Z.div_mod (n / 256) 256 ltac:(lia)).
  pose proof (Z.div_mod (n / 256 / 256) 256 ltac:(lia)).
  rewrite (Z.mod_small (n / 16777216)) by
    (split; [apply Z.div_pos; lia|apply Z.div_lt_upper_bound; lia]).
  replace (n / 65536) with (n / 256 / 256) by (rewrite Z.div_div by lia; reflexivity).
  replace (n / 16777216) with (n / 256 / 256 / 256)
    by (rewrite !Z.div_div by lia; reflexivity).
  pose proof (Z.div_mod (n / 256 / 256 / 256) 256 ltac:(lia)).
  assert (n / 256 / 256 / 256 / 256 = 0).
  { rewrite !Z.div_div by lia. apply Z.div_small. lia. }
  pose proof (Z.mod_pos_bound (n / 256 / 256 / 256) 256 ltac:(lia)).
  lia.
Qed.

Lemma or_last_single (n : Z) :
  Libc.or_last [] n = Py.be_bytes 4 n.
Proof.
  rewrite be_bytes_4. unfold Libc.or_last. cbn [map seq nth Nat.sub].
  change (8 * Z.of_nat 3) with 24. change (8 * Z.of_nat 2) with 16.
  change (8 * Z.of_nat 1) with 8. change (8 * Z.of_nat 0) with 0.
  rewrite !Z.lor_0_l, Z.shiftr_0_r. reflexivity.
Qed.

(** X1. A text that is one decimal number [n] is read as the whole 32-bit
    address: [get_ip] returns the four big-endian bytes of [n] when
    [n <= 4294967295] and fails with [socket.error] when [n] is larger. *)
Theorem get_ip_single_number (self : IPAssignment) (n : Z) :
  0 <= n ->
  ip self = Py.fmt_d n ->
  get_ip self
  = (if n <=? 4294967295 then Ok (Py.be_bytes 4 n) else Raise SocketError) /\
  (n <= 4294967295 -> be_value (Py.be_bytes 4 n) = n).
Proof.
  intros Hn E. split; [|intros H; apply be_value_be_bytes_4; lia].
  unfold get_ip, PyLib.inet_aton. rewrite E, fmt_d_no_nul by exact Hn.
  unfold Libc.inet_aton.
  rewrite <- (append_empty (Py.fmt_d n)).
  rewrite inet_aton_loop_number_end by (reflexivity || exact Hn).
  destruct (Z.leb_spec n 4294967295) as [Hs|Hb].
  - rewrite gtb_false by exact Hs. cbv zeta iota.
    cbn [List.length]. change (Libc.last_max 0) with 4294967295.
    rewrite gtb_false by exact Hs. rewrite or_last_single. reflexivity.
  - destruct (Z.gtb_spec n 4294967295); [reflexivity|lia].
Qed.

Lemma get_ip_single_number_witness :
  get_ip (with_ip "3232235521") = Ok [xc0; xa8; x00; x01] /\
  (3232235521 <= 4294967295 ->
   be_value (Py.be_bytes 4 3232235521) = 3232235521).
Proof.
  apply (get_ip_single_number (with_ip "3232235521") 3232235521);
    [lia|reflexivity].
Defined.

(** ** The forms of address text *)

Lemma quad_text_app (a b c d : Z) (rest : string) :
  (quad_text a b c d ++ rest)%string
  = (Py.fmt_d a ++ String "." (Py.fmt_d b ++ String "."
       (Py.fmt_d c ++ String "." (Py.fmt_d d ++ rest))))%string.
Proof.
  unfold quad_text. rewrite !append_assoc. reflexivity.
Qed.

Lemma has_nul_quad_nonneg (a b c d : Z) :
  0 <= a -> 0 <= b -> 0 <= c -> 0 <= d ->
  PyLib.has_nul (quad_text a b c d) = false.
Proof.
  intros Ha Hb Hc Hd. unfold quad_text. rewrite !has_nul_app.
  rewrite !fmt_d_no_nul by assumption. reflexivity.
Qed.

Lemma leb_gtb (a b : Z) : (a >? b) = negb (a <=? b).
Proof.
  rewrite Z.gtb_ltb. destruct (Z.leb_spec a b), (Z.ltb_spec b a);
    try reflexivity; lia.
Qed.

(** X2. For the text of any four non-negative decimal numbers joined by
    dots, [get_ip] returns the four numbers as bytes when each is at most
    255, and fails with [socket.error] when one of them is larger. *)
Theorem get_ip_four_numbers (self : IPAssignment) (a b c d : Z) :
  0 <= a -> 0 <= b -> 0 <= c -> 0 <= d ->
  ip self = quad_text a b c d ->
  get_ip self
  = if (a <=? 255) && (b <=? 255) && (c <=? 255) && (d <=? 255)
    then Ok [byte_of_Z a; byte_of_Z b; byte_of_Z c; byte_of_Z d]
    else Raise SocketError.
Proof.
  intros Ha Hb Hc Hd E. unfold get_ip, PyLib.inet_aton.
  rewrite E, has_nul_quad_nonneg by assumption.
  unfold Libc.inet_aton.
  rewrite <- (append_empty (quad_text a b c d)), quad_text_app.
  rewrite !inet_aton_loop_number_dot by assumption.
  cbn [List.length app Nat.ltb Nat.leb orb].
  rewrite !leb_gtb.
  destruct (a <=? 255); cbn [negb andb]; [|reflexivity].
  destruct (b <=? 255); cbn [negb andb]; [|reflexivity].
  destruct (c <=? 255); cbn [negb andb]; [|reflexivity].
  rewrite inet_aton_loop_number_end by (reflexivity || assumption).
  destruct (Z.leb_spec d 255) as [Hs|Hbig].
  - rewrite leb_gtb. destruct (Z.leb_spec d 4294967295); [|lia].
    cbn [negb]. cbv zeta iota. cbn [List.length].
    change (Libc.last_max 3) with 255. rewrite gtb_false by exact Hs.
    rewrite or_last_octets by lia. reflexivity.
  - destruct (d >? 4294967295); [reflexivity|].
    cbv zeta iota. cbn [List.length]. change (Libc.last_max 3) with 255.
    destruct (Z.gtb_spec d 255); [reflexivity|lia].
Qed.

Lemma get_ip_four_numbers_witness :
  get_ip (with_ip "10.0.0.256") = Raise SocketError.
Proof.
  apply (get_ip_four_numbers (with_ip "10.0.0.256") 10 0 0 256);
    try lia; reflexivity.
Defined.

Lemma be_bytes_3 (n : Z) :
  Py.be_bytes 3 n
  = [byte_of_Z (Z.land (Z.shiftr n 16) 255);
     byte_of_Z (Z.land (Z.shiftr n 8) 255);
     byte_of_Z (Z.land n 255)].
Proof.
  cbn [Py.be_bytes app]. rewrite !Z.shiftr_shiftr by lia. reflexivity.
Qed.

Lemma be_bytes_2 (n : Z) :
  Py.be_bytes 2 n
  = [byte_of_Z (Z.land (Z.shiftr n 8) 255); byte_of_Z (Z.land n 255)].
Proof. reflexivity. Qed.

Lemma shiftr_small (n k : Z) :
  0 <= k -> 0 <= n < 2 ^ k -> Z.land (Z.shiftr n k) 255 = 0.
Proof.
  intros Hk Hn. rewrite Z.shiftr_div_pow2 by exact Hk.
  rewrite Z.div_small by exact Hn. reflexivity.
Qed.

Lemma or_last_two (a n : Z) :
  0 <= n <= 16777215 ->
  Libc.or_last [a] n = byte_of_Z a :: Py.be_bytes 3 n.
Proof.
  intros Hn. rewrite be_bytes_3. unfold Libc.or_last.
  cbn [map seq nth Nat.sub].
  change (8 * Z.of_nat 3) with 24. change (8 * Z.of_nat 2) with 16.
  change (8 * Z.of_nat 1) with 8. change (8 * Z.of_nat 0) with 0.
  rewrite (shiftr_small n 24) by (change (2 ^ 24) with 16777216; lia).
  rewrite !Z.lor_0_l, Z.lor_0_r, Z.shiftr_0_r. reflexivity.
Qed.

Lemma or_last_three (a b n : Z) :
  0 <= n <= 65535 ->
  Libc.or_last [a; b] n = byte_of_Z a :: byte_of_Z b :: Py.be_bytes 2 n.
Proof.
  intros Hn. rewrite be_bytes_2. unfold Libc.or_last.
  cbn [map seq nth Nat.sub].
  change (8 * Z.of_nat 3) with 24. change (8 * Z.of_nat 2) with 16.
  change (8 * Z.of_nat 1) with 8. change (8 * Z.of_nat 0) with 0.
  rewrite (shiftr_small n 24) by (change (2 ^ 24) with 16777216; lia).
  rewrite (shiftr_small n 16) by (change (2 ^ 16) with 65536; lia).
  rewrite !Z.lor_0_l, !Z.lor_0_r, Z.shiftr_0_r. reflexivity.
Qed.

(** X3. In the two-number form [a.n] the second number fills the last
    three bytes: [get_ip] returns the byte [a] followed by the three
    big-endian bytes of [n] when [a <= 255] and [n <= 16777215], and fails
    with [socket.error] otherwise. *)
Theorem get_ip_two_numbers (self : IPAssignment) (a n : Z) :
  0 <= a -> 0 <= n ->
  ip self = (Py.fmt_d a ++ "." ++ Py.fmt_d n)%string ->
  get_ip self
  = if (a <=? 255) && (n <=? 16777215)
    then Ok (byte_of_Z a :: Py.be_bytes 3 n)
    else Raise SocketError.
Proof.
  intros Ha Hn E. unfold get_ip, PyLib.inet_aton.
  rewrite E, !has_nul_app, !fmt_d_no_nul by assumption.
  cbn [PyLib.has_nul orb]. change (Libc.code "." =? 0) with false.
  cbn [orb]. unfold Libc.inet_aton.
  change ("." ++ Py.fmt_d n)%string with (String "." (Py.fmt_d n)).
  rewrite inet_aton_loop_number_dot by assumption.
  cbn [List.length app Nat.ltb Nat.leb orb]. rewrite leb_gtb.
  destruct (a <=? 255); cbn [negb andb]; [|reflexivity].
  rewrite <- (append_empty (Py.fmt_d n)).
  rewrite inet_aton_loop_number_end by (reflexivity || assumption).
  rewrite ?append_empty.
  destruct (Z.leb_spec n 16777215) as [Hs|Hbig].
  - rewrite gtb_false by lia. cbv zeta iota. cbn [List.length].
    change (Libc.last_max 1) with 16777215. rewrite gtb_false by exact Hs.
    rewrite or_last_two by lia. reflexivity.
  - destruct (n >? 4294967295); [reflexivity|].
    cbv zeta iota. cbn [List.length]. change (Libc.last_max 1) with 16777215.
    destruct (Z.gtb_spec n 16777215); [reflexivity|lia].
Qed.

Lemma get_ip_two_numbers_witness :
  get_ip (with_ip "127.1") = Ok [x7f; x00; x00; x01].
Proof.
  apply (get_ip_two_numbers (with_ip "127.1") 127 1); try lia; reflexivity.
Defined.

(** X4. In the three-number form [a.b.n] the third number fills the last
    two bytes: [get_ip] returns the bytes [a], [b] and the two big-endian
    bytes of [n] when [a <= 255], [b <= 255] and [n <= 65535], and fails
    with [socket.error] otherwise. *)
Theorem get_ip_three_numbers (self : IPAssignment) (a b n : Z) :
  0 <= a -> 0 <= b -> 0 <= n ->
  ip self = (Py.fmt_d a ++ "." ++ Py.fmt_d b ++ "." ++ Py.fmt_d n)%string ->
  get_ip self
  = if (a <=? 255) && (b <=? 255) && (n <=? 65535)
    then Ok (byte_of_Z a :: byte_of_Z b :: Py.be_bytes 2 n)
    else Raise SocketError.
Proof.
  intros Ha Hb Hn E. unfold get_ip, PyLib.inet_aton.
  rewrite E, !has_nul_app, !fmt_d_no_nul by assumption.
  cbn [PyLib.has_nul orb]. change (Libc.code "." =? 0) with false.
  cbn [orb]. unfold Libc.inet_aton.
  change ("." ++ Py.fmt_d b ++ "." ++ Py.fmt_d n)%string
    with (String "." (Py.fmt_d b ++ String "." (Py.fmt_d n))).
  rewrite !inet_aton_loop_number_dot by assumption.
  cbn [List.length app Nat.ltb Nat.leb orb]. rewrite !leb_gtb.
  destruct (a <=? 255); cbn [negb andb]; [|reflexivity].
  destruct (b <=? 255); cbn [negb andb]; [|reflexivity].
  rewrite <- (append_empty (Py.fmt_d n)).
  rewrite inet_aton_loop_number_end by (reflexivity || assumption).
  rewrite ?append_empty.
  destruct (Z.leb_spec n 65535) as [Hs|Hbig].
  - rewrite gtb_false by lia. cbv zeta iota. cbn [List.length].
    change (Libc.last_max 2) with 65535. rewrite gtb_false by exact Hs.
    rewrite or_last_three by lia. reflexivity.
  - destruct (n >? 4294967295); [reflexivity|].
    cbv zeta iota. cbn [List.length]. change (Libc.last_max 2) with 65535.
    destruct (Z.gtb_spec n 65535); [reflexivity|lia].
Qed.

Lemma get_ip_three_numbers_witness :
  get_ip (with_ip "172.16.258") = Ok [xac; x10; x01; x02].
Proof.
  apply (get_ip_three_numbers (with_ip "172.16.258") 172 16 258);
    try lia; reflexivity.
Defined.

Lemma isspace_facts (ws : ascii) :
  Libc.isspace ws = true ->
  Libc.isascii ws = true /\ Libc.isdigit ws = false /\
  Libc.is_x ws = false /\ (Libc.code ws =? 46) = false /\
  (Libc.code ws =? 0) = false.
Proof.
  unfold Libc.isspace, Libc.isascii, Libc.isdigit, Libc.is_x.
  intros H. apply orb_true_iff in H.
  assert (Hc : Libc.code ws = 32 \/ 9 <= Libc.code ws <= 13).
  { destruct H as [H|H]; [left; apply Z.eqb_eq; exact H|right].
    apply andb_true_iff in H. destruct H as [H1 H2].
    apply Z.leb_le in H1. apply Z.leb_le in H2. lia. }
  clear H. repeat split.
  - apply Z.ltb_lt. lia.
  - apply andb_false_iff. left. apply Z.leb_gt. lia.
  - apply orb_false_iff. split; apply Z.eqb_neq; lia.
  - apply Z.eqb_neq. lia.
  - apply Z.eqb_neq. lia.
Qed.

(** X5. Text after a dotted quad is ignored when it starts with a
    white-space character: for octets [a], [b], [c], [d], a white-space
    character and any text without a null byte after it, [get_ip] returns
    the bytes of the quad. *)
Theorem get_ip_trailing_space (self : IPAssignment) (a b c d : Z)
        (ws : ascii) (rest : string) :
  0 <= a <= 255 -> 0 <= b <= 255 -> 0 <= c <= 255 -> 0 <= d <= 255 ->
  Libc.isspace ws = true ->
  PyLib.has_nul rest = false ->
  ip self = (quad_text a b c d ++ String ws rest)%string ->
  get_ip self = Ok [byte_of_Z a; byte_of_Z b; byte_of_Z c; byte_of_Z d].
Proof.
  intros Ha Hb Hc Hd Hws Hrest E.
  destruct (isspace_facts ws Hws) as (Hasc & Hdig & Hx & Hdot & Hnul).
  unfold get_ip, PyLib.inet_aton.
  rewrite E, has_nul_app, has_nul_quad by assumption.
  cbn [PyLib.has_nul orb]. rewrite Hnul, Hrest. cbn [orb].
  unfold Libc.inet_aton. rewrite quad_text_app.
  rewrite !inet_aton_loop_number_dot by lia.
  cbn [List.length app Nat.ltb Nat.leb orb].
  rewrite !gtb_false by lia.
  rewrite inet_aton_loop_number_end;
    [|lia|cbn [ends_decimal]; rewrite Hdig, Hx; reflexivity
     |cbn [no_dot_first]; rewrite Hdot; reflexivity].
  rewrite gtb_false by lia. cbv zeta iota. rewrite Hasc, Hws.
  cbn [negb orb List.length]. change (Libc.last_max 3) with 255.
  rewrite gtb_false by lia. rewrite or_last_octets by lia. reflexivity.
Qed.

Lemma get_ip_trailing_space_witness :
  get_ip (with_ip "10.0.0.1 and more")
  = Ok [byte_of_Z 10; byte_of_Z 0; byte_of_Z 0; byte_of_Z 1].
Proof.
  apply (get_ip_trailing_space (with_ip "10.0.0.1 and more") 10 0 0 1
           " "%char "and more"); try lia; reflexivity.
Defined.

(** X6. A dotted quad directly followed by a character that is not a
    digit, a dot, an [x] or ASCII white space makes [get_ip] fail: with
    [socket.error], or with [TypeError] when the text has a null byte. *)
Theorem get_ip_trailing_garbage (self : IPAssignment) (a b c d : Z)
        (ch : ascii) (rest : string) :
  0 <= a -> 0 <= b -> 0 <= c -> 0 <= d ->
  garbage_char ch = true ->
  ip self = (quad_text a b c d ++ String ch rest)%string ->
  get_ip self
  = if PyLib.has_nul (ip self) then Raise TypeError else Raise SocketError.
Proof.
  intros Ha Hb Hc Hd Hch E. unfold garbage_char in Hch.
  apply andb_true_iff in Hch. destruct Hch as [Hch Hsp].
  apply andb_true_iff in Hch. destruct Hch as [Hch Hdot].
  apply andb_true_iff in Hch. destruct Hch as [Hdig Hx].
  unfold get_ip, PyLib.inet_aton.
  destruct (PyLib.has_nul (ip self)); [reflexivity|].
  rewrite E. unfold Libc.inet_aton. rewrite quad_text_app.
  rewrite !inet_aton_loop_number_dot by lia.
  cbn [List.length app Nat.ltb Nat.leb orb].
  destruct (a >? 255); [reflexivity|].
  destruct (b >? 255); [reflexivity|].
  destruct (c >? 255); [reflexivity|].
  rewrite inet_aton_loop_number_end;
    [|lia|cbn [ends_decimal]; rewrite Hdig, Hx; reflexivity
     |cbn [no_dot_first]; exact Hdot].
  destruct (d >? 4294967295); [reflexivity|].
  cbv zeta iota. rewrite <- negb_andb, Hsp. reflexivity.
Qed.

Lemma get_ip_trailing_garbage_witness :
  get_ip (with_ip "10.0.0.1/24")
  = if PyLib.has_nul (ip (with_ip "10.0.0.1/24"))
    then Raise TypeError else Raise SocketError.
Proof.
  apply (get_ip_trailing_garbage (with_ip "10.0.0.1/24") 10 0 0 1
           "/"%char "24"); try lia; reflexivity.
Defined.

(** X7. Four decimal numbers followed by a further dot make [get_ip]
    fail, whatever comes after the dot (a fifth number, or nothing): with
    [socket.error], or with [TypeError] when the text has a null byte. *)
Theorem get_ip_five_parts (self : IPAssignment) (a b c d : Z)
        (rest : string) :
  0 <= a -> 0 <= b -> 0 <= c -> 0 <= d ->
  ip self = (quad_text a b c d ++ String "." rest)%string ->
  get_ip self
  = if PyLib.has_nul (ip self) then Raise TypeError else Raise SocketError.
Proof.
  intros Ha Hb Hc Hd E. unfold get_ip, PyLib.inet_aton.
  destruct (PyLib.has_nul (ip self)); [reflexivity|].
  rewrite E. unfold Libc.inet_aton. rewrite quad_text_app.
  rewrite !inet_aton_loop_number_dot by lia.
  cbn [List.length app Nat.ltb Nat.leb orb].
  destruct (a >? 255); [reflexivity|].
  destruct (b >? 255); [reflexivity|].
  destruct (c >? 255); reflexivity.
Qed.

Lemma get_ip_five_parts_witness :
  get_ip (with_ip "1.2.3.4.5")
  = if PyLib.has_nul (ip (with_ip "1.2.3.4.5"))
    then Raise TypeError else Raise SocketError.
Proof.
  apply (get_ip_five_parts (with_ip "1.2.3.4.5") 1 2 3 4 "5");
    try lia; reflexivity.
Defined.

(** ** Leading zeros *)

Lemma octal_char_facts (c : ascii) :
  octal_char c = true ->
  Libc.isxdigit c && (Libc.digit_value c <? 8) = true /\
  Libc.digit_value c = Libc.code c - 48 /\
  Libc.is_x c = false /\ (Libc.code c =? 0) = false.
Proof.
  unfold octal_char. intros H. apply andb_true_iff in H.
  destruct H as [H1 H2]. apply Z.leb_le in H1. apply Z.leb_le in H2.
  assert (Hd : Libc.isdigit c = true).
  { unfold Libc.isdigit. apply andb_true_iff.
    split; apply Z.leb_le; lia. }
  unfold Libc.isxdigit, Libc.digit_value, Libc.is_x. rewrite Hd.
  cbn [orb]. repeat split.
  - apply andb_true_iff. split; [reflexivity|apply Z.ltb_lt; lia].
  - apply orb_false_iff. split; apply Z.eqb_neq; lia.
  - apply Z.eqb_neq. lia.
Qed.

Lemma scan_octal (t : string) (r : string) :
  octal_digits t = true ->
  forall acc,
    Libc.scan_digits 8 (t ++ String "." r) acc
    = (radix_value 8 t acc, String "." r).
Proof.
  unfold octal_digits. induction t as [|c t IH]; intros Ht acc.
  - reflexivity.
  - cbn [list_ascii_of_string forallb] in Ht. apply andb_true_iff in Ht.
    destruct Ht as [Hc Ht].
    destruct (octal_char_facts c Hc) as (Hs & Hv & _ & _).
    cbn [append Libc.scan_digits radix_value]. rewrite Hs, Hv.
    apply IH. exact Ht.
Qed.

Lemma strtoul_leading_zero (rest : string) :
  match rest with
  | String x _ => Libc.is_x x = false
  | EmptyString => True
  end ->
  Libc.strtoul_base0 (String "0" rest)
  = Libc.scan_digits 8 rest 0.
Proof.
  intros H. unfold Libc.strtoul_base0.
  change (Libc.code "0" =? 48) with true. cbv iota.
  assert (E : Libc.scan_digits 8 (String "0" rest) 0
              = Libc.scan_digits 8 rest 0) by reflexivity.
  destruct rest as [|x [|h tl]]; try exact E.
  rewrite H. cbn [andb]. exact E.
Qed.

Lemma octal_no_nul (t : string) :
  octal_digits t = true -> PyLib.has_nul t = false.
Proof.
  unfold octal_digits. induction t as [|c t IH]; [reflexivity|].
  cbn [list_ascii_of_string forallb PyLib.has_nul]. intros H.
  apply andb_true_iff in H. destruct H as [Hc Ht].
  destruct (octal_char_facts c Hc) as (_ & _ & _ & Hn).
  rewrite Hn, (IH Ht). reflexivity.
Qed.

Lemma inet_aton_loop_unfold (fuel : nat) (c : ascii) (s : string)
      (pp : list Z) :
  Libc.inet_aton_loop (S fuel) (String c s) pp
  = if negb (Libc.isdigit c) then None
    else
      let '(ul, endp) := Libc.strtoul_base0 (String c s) in
      if ul >? 4294967295 then None
      else
        match endp with
        | String d cp' =>
            if Libc.code d =? 46 then
              if (2 <? List.length pp)%nat || (ul >? 255) then None
              else Libc.inet_aton_loop fuel cp' (pp ++ [ul])
            else Some (pp, ul, endp)
        | EmptyString => Some (pp, ul, endp)
        end.
Proof. reflexivity. Qed.

(** X8. A first part written with a leading zero is read in base 8: for
    a text [0t.b.c.d] where [t] has only the digits 0 to 7 and [b], [c], [d]
    are octets, [get_ip] returns the base-8 value of [t] as first byte when
    that value is at most 255, and fails with [socket.error] when it is
    larger. *)
Theorem get_ip_leading_zero_octal_part (self : IPAssignment) (t : string)
        (b c d : Z) :
  octal_digits t = true ->
  0 <= b <= 255 -> 0 <= c <= 255 -> 0 <= d <= 255 ->
  ip self = ("0" ++ t ++ "." ++ Py.fmt_d b ++ "." ++ Py.fmt_d c
                 ++ "." ++ Py.fmt_d d)%string ->
  get_ip self
  = if radix_value 8 t 0 <=? 255
    then Ok [byte_of_Z (radix_value 8 t 0);
             byte_of_Z b; byte_of_Z c; byte_of_Z d]
    else Raise SocketError.
Proof.
  intros Ht Hb Hc Hd E. unfold get_ip, PyLib.inet_aton. rewrite E.
  change ("0" ++ t ++ "." ++ Py.fmt_d b ++ "." ++ Py.fmt_d c
              ++ "." ++ Py.fmt_d d)%string
    with (String "0" (t ++ String "."
            (Py.fmt_d b ++ String "." (Py.fmt_d c ++ String "." (Py.fmt_d d))))).
  match goal with
  | |- context [PyLib.has_nul ?s] =>
      assert (Hn : PyLib.has_nul s = false)
  end.
  { cbn [PyLib.has_nul]. rewrite has_nul_app. cbn [PyLib.has_nul].
    rewrite has_nul_app. cbn [PyLib.has_nul].
    rewrite has_nul_app. cbn [PyLib.has_nul].
    rewrite (octal_no_nul t Ht), !fmt_d_no_nul by lia. reflexivity. }
  rewrite Hn.
  unfold Libc.inet_aton. rewrite inet_aton_loop_unfold.
  change (negb (Libc.isdigit "0")) with false. cbv iota.
  rewrite strtoul_leading_zero.
  2: { destruct t as [|x t']; [reflexivity|].
       unfold octal_digits in Ht.
       cbn [list_ascii_of_string forallb] in Ht.
       apply andb_true_iff in Ht. destruct Ht as [Hx _].
       apply (octal_char_facts x Hx). }
  rewrite scan_octal by exact Ht.
  change (Libc.code "." =? 46) with true. cbv iota.
  cbn [List.length Nat.ltb Nat.leb orb app].
  destruct (Z.leb_spec (radix_value 8 t 0) 255) as [Hs|Hbig].
  - rewrite !gtb_false by lia.
    rewrite !inet_aton_loop_number_dot by lia.
    cbn [List.length app Nat.ltb Nat.leb orb].
    rewrite !gtb_false by lia.
    rewrite <- (append_empty (Py.fmt_d d)).
    rewrite inet_aton_loop_number_end by (reflexivity || lia).
    rewrite gtb_false by lia. cbv zeta iota. cbn [List.length].
    change (Libc.last_max 3) with 255. rewrite gtb_false by lia.
    rewrite or_last_octets by lia. reflexivity.
  - destruct (radix_value 8 t 0 >? 4294967295); [reflexivity|].
    destruct (Z.gtb_spec (radix_value 8 t 0) 255); [reflexivity|lia].
Qed.

Lemma get_ip_leading_zero_octal_part_witness :
  get_ip (with_ip "0377.0.0.1")
  = if radix_value 8 "377" 0 <=? 255
    then Ok [byte_of_Z (radix_value 8 "377" 0);
             byte_of_Z 0; byte_of_Z 0; byte_of_Z 1]
    else Raise SocketError.
Proof.
  apply (get_ip_leading_zero_octal_part (with_ip "0377.0.0.1") "377" 0 0 1);
    try lia; reflexivity.
Defined.

Lemma scan_octal_stops_at_digit (t : string) :
  all_digits t = true ->
  octal_digits t = false ->
  forall (rest : string) (acc : Z),
  exists v c r,
    Libc.scan_digits 8 (t ++ rest) acc = (v, String c r) /\
    Libc.isdigit c = true.
Proof.
  unfold all_digits, octal_digits.
  induction t as [|c t IH]; intros Hd Ho rest acc; [discriminate Ho|].
  cbn [list_ascii_of_string forallb] in Hd, Ho.
  apply andb_true_iff in Hd. destruct Hd as [Hc Hd].
  cbn [append Libc.scan_digits].
  destruct (octal_char c) eqn:Eo.
  - destruct (octal_char_facts c Eo) as (Hs & _ & _ & _). rewrite Hs.
    apply IH; assumption.
  - assert (Hs : Libc.isxdigit c && (Libc.digit_value c <? 8) = false).
    { unfold Libc.isxdigit, Libc.digit_value. rewrite Hc. cbn [orb andb].
      unfold octal_char in Eo. unfold Libc.isdigit in Hc.
      apply andb_true_iff in Hc. destruct Hc as [H1 H2].
      apply Z.leb_le in H1. apply Z.leb_le in H2.
      apply Z.ltb_ge.
      apply andb_false_iff in Eo. destruct Eo as [Eo|Eo];
        [apply Z.leb_gt in Eo|apply Z.leb_gt in Eo]; lia. }
    rewrite Hs. exists acc, c, (t ++ rest)%string. split; [reflexivity|].
    exact Hc.
Qed.

Lemma digit_not_x (c : ascii) : Libc.isdigit c = true -> Libc.is_x c = false.
Proof.
  unfold Libc.isdigit, Libc.is_x. intros H. apply andb_true_iff in H.
  destruct H as [H1 H2]. apply Z.leb_le in H1. apply Z.leb_le in H2.
  apply orb_false_iff. split; apply Z.eqb_neq; lia.
Qed.

(** X9. A text that starts with a zero followed by decimal digits among
    which there is an 8 or a 9 makes [get_ip] fail, whatever follows the
    digits: with [socket.error], or with [TypeError] when the text has a
    null byte. *)
Theorem get_ip_leading_zero_not_octal (self : IPAssignment)
        (t rest : string) :
  all_digits t = true ->
  octal_digits t = false ->
  ip self = ("0" ++ t ++ rest)%string ->
  get_ip self
  = if PyLib.has_nul (ip self) then Raise TypeError else Raise SocketError.
Proof.
  intros Hd Ho E. unfold get_ip, PyLib.inet_aton.
  destruct (PyLib.has_nul (ip self)); [reflexivity|].
  rewrite E. change ("0" ++ t ++ rest)%string with (String "0" (t ++ rest)).
  unfold Libc.inet_aton. rewrite inet_aton_loop_unfold.
  change (negb (Libc.isdigit "0")) with false. cbv iota.
  rewrite strtoul_leading_zero.
  2: { destruct t as [|x t']; [discriminate Ho|].
       unfold all_digits in Hd. cbn [list_ascii_of_string forallb] in Hd.
       apply andb_true_iff in Hd. destruct Hd as [Hx _].
       cbn [append]. apply digit_not_x, Hx. }
  destruct (scan_octal_stops_at_digit t Hd Ho rest 0) as [v [c [r [Es Hc]]]].
  rewrite Es. destruct (v >? 4294967295); [reflexivity|].
  assert (Hdot : (Libc.code c =? 46) = false).
  { unfold Libc.isdigit in Hc. apply andb_true_iff in Hc.
    destruct Hc as [H1 _]. apply Z.leb_le in H1. apply Z.eqb_neq. lia. }
  rewrite Hdot. cbv zeta iota.
  assert (Hsp : Libc.isspace c = false).
  { unfold Libc.isdigit in Hc. apply andb_true_iff in Hc.
    destruct Hc as [H1 _]. apply Z.leb_le in H1. unfold Libc.isspace.
    apply orb_false_iff. split; [apply Z.eqb_neq; lia|].
    apply andb_false_iff. right. apply Z.leb_gt. lia. }
  rewrite Hsp. cbn [negb]. rewrite orb_true_r. reflexivity.
Qed.

Lemma get_ip_leading_zero_not_octal_witness :
  get_ip (with_ip "018.0.0.1")
  = if PyLib.has_nul (ip (with_ip "018.0.0.1"))
    then Raise TypeError else Raise SocketError.
Proof.
  apply (get_ip_leading_zero_not_octal (with_ip "018.0.0.1") "18" ".0.0.1");
    reflexivity.
Defined.

(** ** The values of the subnet mask *)

Lemma mask_value_check_all : forallb mask_value_check (Py.range 0 33) = true.
Proof. vm_compute. reflexivity. Qed.

Lemma mask_nested_check_all : forallb mask_nested_check (Py.range 0 33) = true.
Proof. vm_compute. reflexivity. Qed.

Lemma mask_shape_check_all : forallb mask_shape_check (Py.range 0 33) = true.
Proof. vm_compute. reflexivity. Qed.

Lemma get_mask_returns_range (self : IPAssignment) (bs : list byte) :
  get_mask self = Ok bs -> 0 <= mask self <= 32.
Proof.
  intros H.
  destruct (Z.lt_ge_cases (mask self) 0) as [Hneg|H0].
  { rewrite get_mask_below_0 in H by exact Hneg. discriminate H. }
  destruct (Z.lt_ge_cases 32 (mask self)) as [Hbig|H32]; [|lia].
  rewrite get_mask_above_32 in H by exact Hbig. discriminate H.
Qed.

Lemma get_mask_in_range (self : IPAssignment) :
  0 <= mask self <= 32 ->
  get_mask self = Ok (Py.be_bytes 4 (mask32 (mask self))) /\
  be_value (Py.be_bytes 4 (mask32 (mask self)))
  = 4294967296 - 2 ^ (32 - mask self).
Proof.
  intros Hr.
  assert (Hc : mask_value_check (mask self) = true).
  { apply (forallb_range _ 0 33 mask_value_check_all). lia. }
  unfold mask_value_check in Hc. apply andb_true_iff in Hc.
  destruct Hc as [H1 H2]. apply result_bytes_eqb_sound in H1.
  apply Z.eqb_eq in H2. rewrite get_mask_depends_on_mask. split; assumption.
Qed.

Lemma get_mask_value (self : IPAssignment) (bs : list byte) :
  get_mask self = Ok bs ->
  0 <= mask self <= 32 /\
  bs = Py.be_bytes 4 (mask32 (mask self)) /\
  be_value bs = 4294967296 - 2 ^ (32 - mask self).
Proof.
  intros H. pose proof (get_mask_returns_range self bs H) as Hr.
  destruct (get_mask_in_range self Hr) as [H1 H2].
  rewrite H1 in H. apply Ok_inj in H. subst bs.
  split; [exact Hr|]. split; [reflexivity|exact H2].
Qed.

(** X10. Whenever [get_mask] returns, the prefix length is in [0,32], the
    value of the four bytes is [2^32 - 2^(32 - mask)], and its complement
    plus one, the number of addresses of the subnet, is [2^(32 - mask)]. *)
Theorem get_mask_subnet_size (self : IPAssignment) (bs : list byte) :
  get_mask self = Ok bs ->
  0 <= mask self <= 32 /\
  be_value bs = 2 ^ 32 - 2 ^ (32 - mask self) /\
  (4294967295 - be_value bs) + 1 = 2 ^ (32 - mask self).
Proof.
  intros H. destruct (get_mask_value self bs H) as (Hr & _ & Hv).
  change (2 ^ 32) with 4294967296.
  split; [exact Hr|]. split; lia.
Qed.

Lemma get_mask_subnet_size_witness :
  0 <= mask (with_mask 24) <= 32 /\
  be_value [xff; xff; xff; x00] = 2 ^ 32 - 2 ^ (32 - mask (with_mask 24)) /\
  (4294967295 - be_value [xff; xff; xff; x00]) + 1
  = 2 ^ (32 - mask (with_mask 24)).
Proof.
  apply (get_mask_subnet_size (with_mask 24) [xff; xff; xff; x00]).
  reflexivity.
Defined.

(** X11. For two rows on which [get_mask] returns, the longer prefix has
    the larger mask value, and equal masks come only from equal prefix
    lengths. *)
Theorem get_mask_strictly_increasing (self other : IPAssignment)
        (bs bs' : list byte) :
  get_mask self = Ok bs ->
  get_mask other = Ok bs' ->
  (mask self < mask other <-> be_value bs < be_value bs') /\
  (bs = bs' -> mask self = mask other).
Proof.
  intros H H'.
  destruct (get_mask_value self bs H) as (Hr & _ & Hv).
  destruct (get_mask_value other bs' H') as (Hr' & _ & Hv').
  assert (Hmono : forall x y, 0 <= x <= 32 -> 0 <= y <= 32 -> x < y ->
                              2 ^ (32 - y) < 2 ^ (32 - x)).
  { intros x y Hx Hy Hxy. apply Z.pow_lt_mono_r; lia. }
  assert (Hiff : mask self < mask other <-> be_value bs < be_value bs').
  { rewrite Hv, Hv'. split.
    - intros Hlt. pose proof (Hmono _ _ Hr Hr' Hlt). lia.
    - intros Hlt.
      destruct (Z.lt_trichotomy (mask self) (mask other)) as [Hc|[Hc|Hc]];
        [exact Hc|rewrite Hc in Hlt; lia|].
      pose proof (Hmono _ _ Hr' Hr Hc). lia. }
  split; [exact Hiff|].
  intros ->.
  destruct (Z.lt_trichotomy (mask self) (mask other)) as [Hc|[Hc|Hc]];
    [|exact Hc|].
  - apply Hiff in Hc. lia.
  - assert (Hlt : 2 ^ (32 - mask self) < 2 ^ (32 - mask other))
      by (apply Hmono; lia).
    lia.
Qed.

Lemma get_mask_strictly_increasing_witness :
  (mask (with_mask 16) < mask (with_mask 24)
   <-> be_value [xff; xff; x00; x00] < be_value [xff; xff; xff; x00]) /\
  ([xff; xff; x00; x00] = [xff; xff; xff; x00]
   -> mask (with_mask 16) = mask (with_mask 24)).
Proof.
  apply (get_mask_strictly_increasing (with_mask 16) (with_mask 24));
    reflexivity.
Defined.

(** X12. Masks are nested: when [get_mask] returns on two rows and the
    first prefix is not longer than the second, every bit of the first mask
    is a bit of the second (their bitwise and is the first mask). *)
Theorem get_mask_nested (self other : IPAssignment) (bs bs' : list byte) :
  get_mask self = Ok bs ->
  get_mask other = Ok bs' ->
  mask self <= mask other ->
  Z.land (be_value bs) (be_value bs') = be_value bs.
Proof.
  intros H H' Hle.
  destruct (get_mask_value self bs H) as (Hr & _ & Hv).
  destruct (get_mask_value other bs' H') as (Hr' & _ & Hv').
  rewrite Hv, Hv'.
  assert (Hc : mask_nested_check (mask self) = true).
  { apply (forallb_range _ 0 33 mask_nested_check_all). lia. }
  unfold mask_nested_check in Hc.
  apply Z.eqb_eq.
  apply (forallb_range _ (mask self) 33 Hc (mask other)). lia.
Qed.

Lemma get_mask_nested_witness :
  Z.land (be_value [xff; xff; x00; x00]) (be_value [xff; xff; xff; x00])
  = be_value [xff; xff; x00; x00].
Proof.
  apply (get_mask_nested (with_mask 16) (with_mask 24));
    [reflexivity|reflexivity|cbn [mask with_mask]; lia].
Defined.

(** X13. Every result of [get_mask] is a run of FF bytes, then at most
    one byte among 00, 80, C0, E0, F0, F8, FC, FE, then only 00 bytes. *)
Theorem get_mask_bytes_shape (self : IPAssignment) (bs : list byte) :
  get_mask self = Ok bs ->
  ones_then_zeros (map Z_of_byte bs) = true.
Proof.
  intros H. destruct (get_mask_value self bs H) as (Hr & -> & _).
  apply (forallb_range _ 0 33 mask_shape_check_all). lia.
Qed.

Lemma get_mask_bytes_shape_witness :
  ones_then_zeros (map Z_of_byte [xff; xff; xf0; x00]) = true.
Proof.
  apply (get_mask_bytes_shape (with_mask 20) [xff; xff; xf0; x00]).
  reflexivity.
Defined.

(** X14. For every prefix length among the choices declared for the
    [mask] field, [get_mask] returns, and the mask it returns has its
    leading bit set (in particular it is not the zero mask). *)
Theorem get_mask_of_choice (self : IPAssignment) :
  In (mask self) (map fst mask_choices) ->
  exists bs,
    get_mask self = Ok bs /\
    2147483648 <= be_value bs <= 4294967295.
Proof.
  intros Hin. apply mask_choice_iff in Hin.
  destruct (get_mask_in_range self ltac:(lia)) as [H1 H2].
  exists (Py.be_bytes 4 (mask32 (mask self))). split; [exact H1|].
  rewrite H2.
  assert (0 < 2 ^ (32 - mask self)) by (apply Z.pow_pos_nonneg; lia).
  assert (2 ^ (32 - mask self) <= 2 ^ 31)
    by (apply Z.pow_le_mono_r; lia).
  change (2 ^ 31) with 2147483648 in *. lia.
Qed.

Lemma get_mask_of_choice_witness :
  exists bs,
    get_mask (with_mask 1) = Ok bs /\
    2147483648 <= be_value bs <= 4294967295.
Proof.
  apply (get_mask_of_choice (with_mask 1)). vm_compute. left. reflexivity.
Defined.

(** ** Display texts and labels *)

Lemma to_int_not_nil (z : Z) :
  Z.to_int z <> Decimal.Pos Decimal.Nil /\
  Z.to_int z <> Decimal.Neg Decimal.Nil.
Proof.
  destruct z as [|p|p]; cbn [Z.to_int]; split; try discriminate;
    intros H; injection H as H; exact (DecimalPos.Unsigned.to_uint_nonnil p H).
Qed.

Lemma fmt_d_inj (a b : Z) : Py.fmt_d a = Py.fmt_d b -> a = b.
Proof.
  unfold Py.fmt_d. intros H.
  apply (f_equal NilZero.int_of_string) in H.
  destruct (to_int_not_nil a) as [Ha1 Ha2].
  destruct (to_int_not_nil b) as [Hb1 Hb2].
  rewrite !NilZero.isi in H by assumption.
  apply DecimalZ.to_int_inj. congruence.
Qed.

Lemma uint_text_no_slash (d : Decimal.uint) :
  no_slash (NilEmpty.string_of_uint d) = true.
Proof.
  unfold no_slash.
  induction d as [|d IH|d IH|d IH|d IH|d IH|d IH|d IH|d IH|d IH|d IH];
    [reflexivity|..];
    cbn [NilEmpty.string_of_uint list_ascii_of_string forallb];
    rewrite IH; reflexivity.
Qed.

Lemma fmt_d_no_slash (z : Z) : no_slash (Py.fmt_d z) = true.
Proof.
  unfold Py.fmt_d. destruct z as [|p|p]; [reflexivity|..];
    cbn [Z.to_int NilZero.string_of_int]; unfold NilZero.string_of_uint;
    pose proof (DecimalPos.Unsigned.to_uint_nonnil p) as Hn;
    pose proof (uint_text_no_slash (Pos.to_uint p)) as Hs;
    destruct (Pos.to_uint p); try contradiction; try exact Hs.
  all: unfold no_slash in *;
    cbn [list_ascii_of_string forallb] in *; exact Hs.
Qed.

Lemma no_slash_app_slash (s t : string) :
  no_slash (s ++ String "/" t) = false.
Proof.
  unfold no_slash. induction s as [|c s IH]; [reflexivity|].
  cbn [append list_ascii_of_string forallb]. rewrite IH.
  apply andb_false_r.
Qed.

Lemma split_last_slash (s1 s2 t1 t2 : string) :
  no_slash t1 = true -> no_slash t2 = true ->
  (s1 ++ String "/" t1)%string = (s2 ++ String "/" t2)%string ->
  s1 = s2 /\ t1 = t2.
Proof.
  revert s2. induction s1 as [|c s1 IH]; intros s2 H1 H2 E.
  - destruct s2 as [|c2 s2]; cbn [append] in E.
    + split; [reflexivity|congruence].
    + injection E as _ E. rewrite E, no_slash_app_slash in H1.
      discriminate H1.
  - destruct s2 as [|c2 s2]; cbn [append] in E.
    + injection E as _ E. rewrite <- E, no_slash_app_slash in H2.
      discriminate H2.
    + injection E as -> E. destruct (IH s2 H1 H2 E) as [-> ->].
      split; reflexivity.
Qed.

(** X15. The display text of an [IPBlock], [subnet/mask], determines both
    fields: two blocks with the same display text have the same subnet and
    the same mask, also when the subnet text itself has slashes. *)
Theorem ipblock_unicode_determines_block (self other : IPBlock.IPBlock)
        (t : string) :
  IPBlock.__unicode__ self = Text t ->
  IPBlock.__unicode__ other = Text t ->
  IPBlock.subnet self = IPBlock.subnet other /\
  IPBlock.mask self = IPBlock.mask other.
Proof.
  unfold IPBlock.__unicode__, PyFormat.fmt_s.
  destruct (PyFormat.ascii_only (IPBlock.subnet self));
    [|intros H; discriminate H].
  destruct (PyFormat.ascii_only (IPBlock.subnet other));
    [|intros _ H; discriminate H].
  intros H1 H2. rewrite <- H2 in H1. clear H2.
  assert (E : (IPBlock.subnet self ++ String "/" (Py.fmt_d (IPBlock.mask self)))%string
              = (IPBlock.subnet other ++ String "/" (Py.fmt_d (IPBlock.mask other)))%string)
    by (injection H1 as H1; exact H1).
  destruct (split_last_slash _ _ _ _ (fmt_d_no_slash _) (fmt_d_no_slash _) E)
    as [Hs Hm].
  split; [exact Hs|apply fmt_d_inj, Hm].
Qed.

Lemma ipblock_unicode_determines_block_witness :
  IPBlock.subnet
    {| IPBlock.simulator := 1; IPBlock.parentIPBlock := None;
       IPBlock.org := 1; IPBlock.subnet := "10.0.0.0"; IPBlock.mask := 8 |}
  = IPBlock.subnet
      {| IPBlock.simulator := 2; IPBlock.parentIPBlock := Some 5;
         IPBlock.org := 3; IPBlock.subnet := "10.0.0.0"; IPBlock.mask := 8 |}
  /\
  IPBlock.mask
    {| IPBlock.simulator := 1; IPBlock.parentIPBlock := None;
       IPBlock.org := 1; IPBlock.subnet := "10.0.0.0"; IPBlock.mask := 8 |}
  = IPBlock.mask
      {| IPBlock.simulator := 2; IPBlock.parentIPBlock := Some 5;
         IPBlock.org := 3; IPBlock.subnet := "10.0.0.0"; IPBlock.mask := 8 |}.
Proof.
  apply (ipblock_unicode_determines_block _ _ "10.0.0.0/8"); reflexivity.
Defined.

Lemma append_inj_l (p s t : string) : (p ++ s)%string = (p ++ t)%string -> s = t.
Proof.
  induction p as [|c p IH]; cbn [append]; intros H; [exact H|].
  injection H as H. apply IH, H.
Qed.

(** X16. The display text of a [Topology], the word Topology and its
    number, determines the number: two topologies with the same display
    text have the same [id]. *)
Theorem topology_unicode_determines_id (self other : Topology.Topology) :
  Topology.__unicode__ self = Topology.__unicode__ other ->
  Topology.id self = Topology.id other.
Proof.
  unfold Topology.__unicode__. intros H.
  apply append_inj_l in H. apply fmt_d_inj, H.
Qed.

Lemma topology_unicode_determines_id_witness :
  Topology.id {| Topology.id := 7; Topology.owner := 1; Topology.template := 2 |}
  = Topology.id {| Topology.id := 7; Topology.owner := 3; Topology.template := 4 |}.
Proof.
  apply (topology_unicode_determines_id
           {| Topology.id := 7; Topology.owner := 1; Topology.template := 2 |}
           {| Topology.id := 7; Topology.owner := 3; Topology.template := 4 |}).
  reflexivity.
Defined.

(** X17. Each choice of the [mask] field is labelled with a slash and the
    decimal prefix length, and two choices have the same label only when
    they have the same prefix length. *)
Theorem mask_choice_labels (k1 k2 : Z) (l1 l2 : string) :
  In (k1, l1) mask_choices ->
  In (k2, l2) mask_choices ->
  l1 = ("/" ++ Py.fmt_d k1)%string /\
  (l1 = l2 <-> k1 = k2).
Proof.
  unfold mask_choices. intros H1 H2.
  apply in_map_iff in H1. destruct H1 as [i [E1 _]].
  apply in_map_iff in H2. destruct H2 as [j [E2 _]].
  injection E1 as -> <-. injection E2 as -> <-.
  split; [reflexivity|]. split.
  - intros H. injection H as H. apply fmt_d_inj, H.
  - intros ->. reflexivity.
Qed.

Lemma mask_choice_labels_witness :
  "/8"%string = ("/" ++ Py.fmt_d 8)%string /\
  ("/8"%string = "/24"%string <-> 8 = 24).
Proof.
  apply (mask_choice_labels 8 24 "/8" "/24"); vm_compute;
    repeat (first [left; reflexivity | right]).
Defined.

(** X18. Whatever text [get_ip] accepts, its result rendered as a dotted
    quad is accepted again and gives the same four bytes: parsing is the
    left inverse of rendering on every result. *)
Theorem get_ip_of_rendering (self : IPAssignment) (bs : list byte) :
  get_ip self = Ok bs ->
  get_ip {| topology := topology self; port := port self;
            ip := render bs; mask := mask self |} = Ok bs.
Proof.
  intros H. pose proof (get_ip_returns_4 self bs H) as Hl.
  destruct bs as [|b0 [|b1 [|b2 [|b3 [|b4 bs]]]]]; try discriminate Hl.
  unfold get_ip. cbn [ip].
  change (render [b0; b1; b2; b3])
    with (quad_text (Z_of_byte b0) (Z_of_byte b1) (Z_of_byte b2) (Z_of_byte b3)).
  pose proof (Z_of_byte_range b0). pose proof (Z_of_byte_range b1).
  pose proof (Z_of_byte_range b2). pose proof (Z_of_byte_range b3).
  rewrite inet_aton_quad by lia.
  rewrite !byte_of_Z_of_byte. reflexivity.
Qed.

Lemma get_ip_of_rendering_witness :
  get_ip {| topology := topology (with_ip "0x7f.1");
            port := port (with_ip "0x7f.1");
            ip := render [x7f; x00; x00; x01];
            mask := mask (with_ip "0x7f.1") |}
  = Ok [x7f; x00; x00; x01].
Proof.
  apply (get_ip_of_rendering (with_ip "0x7f.1") [x7f; x00; x00; x01]).
  reflexivity.
Defined.

(** * The grammar of address text *)

Lemma inet_aton_finish (s : string) :
  Libc.inet_aton s = finish (Libc.inet_aton_loop 4 s []).
Proof. reflexivity. Qed.

Lemma code_range (c : ascii) : 0 <= Libc.code c < 256.
Proof.
  unfold Libc.code. pose proof (N_ascii_bounded c). lia.
Qed.

Lemma white_space_spec (c : ascii) :
  white_space c = Libc.isascii c && Libc.isspace c.
Proof.
  unfold white_space, Libc.isascii, Libc.isspace. cbn [existsb].
  pose proof (code_range c).
  destruct (Z.eqb_spec (Libc.code c) 32), (Z.eqb_spec (Libc.code c) 9),
    (Z.eqb_spec (Libc.code c) 10), (Z.eqb_spec (Libc.code c) 11),
    (Z.eqb_spec (Libc.code c) 12), (Z.eqb_spec (Libc.code c) 13),
    (Z.ltb_spec (Libc.code c) 128), (Z.leb_spec 9 (Libc.code c)),
    (Z.leb_spec (Libc.code c) 13); cbn; try reflexivity; lia.
Qed.

(** *** Characters *)

Lemma sep_not_digit_ok (base : Z) (c : ascii) :
  sep_char c = true -> digit_ok base c = false.
Proof.
  unfold sep_char, white_space, digit_ok, Libc.isxdigit, Libc.isdigit.
  cbn [existsb]. intros H.
  assert (Hc : Libc.code c < 48).
  { repeat (apply orb_true_iff in H; destruct H as [H|H]);
      try (apply Z.eqb_eq in H; lia). discriminate H. }
  destruct (Z.leb_spec 48 (Libc.code c)); [lia|].
  destruct (Z.leb_spec 97 (Libc.code c)); [lia|].
  destruct (Z.leb_spec 65 (Libc.code c)); [lia|]. reflexivity.
Qed.

Lemma sep_facts (c : ascii) :
  sep_char c = true ->
  Libc.isdigit c = false /\ Libc.is_x c = false /\
  Libc.isxdigit c = false /\
  ((Libc.code c =? 46) = false ->
   negb (Libc.isascii c) || negb (Libc.isspace c) = false).
Proof.
  intros H. pose proof (sep_not_digit_ok 16 c H) as Hd.
  unfold sep_char in H. unfold digit_ok in Hd.
  assert (Hc : Libc.code c < 48).
  { unfold white_space in H. cbn [existsb] in H.
    repeat (apply orb_true_iff in H; destruct H as [H|H]);
      try (apply Z.eqb_eq in H; lia). discriminate H. }
  assert (Hdig : Libc.isdigit c = false).
  { unfold Libc.isdigit. destruct (Z.leb_spec 48 (Libc.code c)); [lia|].
    reflexivity. }
  repeat split.
  - exact Hdig.
  - unfold Libc.is_x. apply orb_false_iff. split; apply Z.eqb_neq; lia.
  - unfold Libc.isxdigit. rewrite Hdig. cbn [orb].
    destruct (Z.leb_spec 97 (Libc.code c)); [lia|].
    destruct (Z.leb_spec 65 (Libc.code c)); [lia|]. reflexivity.
  - intros Hdot. rewrite Hdot in H. cbn [orb] in H.
    rewrite white_space_spec in H. apply andb_true_iff in H.
    destruct H as [H1 H2]. rewrite H1, H2. reflexivity.
Qed.

Lemma not_sep_garbage (c : ascii) :
  sep_char c = false ->
  (Libc.code c =? 46) = false /\
  negb (Libc.isascii c) || negb (Libc.isspace c) = true.
Proof.
  unfold sep_char. intros H. apply orb_false_iff in H. destruct H as [H1 H2].
  split; [exact H1|]. rewrite white_space_spec in H2.
  rewrite <- negb_andb, H2. reflexivity.
Qed.

Lemma octal_char_ok (c : ascii) : octal_char c = digit_ok 8 c.
Proof.
  unfold octal_char, digit_ok, Libc.isxdigit, Libc.digit_value, Libc.isdigit.
  pose proof (code_range c).
  destruct (Z.leb_spec 48 (Libc.code c)), (Z.leb_spec (Libc.code c) 55),
    (Z.leb_spec (Libc.code c) 57), (Z.leb_spec 97 (Libc.code c)),
    (Z.leb_spec (Libc.code c) 102), (Z.leb_spec 65 (Libc.code c)),
    (Z.leb_spec (Libc.code c) 70); cbn [andb orb]; try lia;
    try reflexivity;
    match goal with
    | |- _ = (?x <? 8) => destruct (Z.ltb_spec x 8); try reflexivity; lia
    | |- _ = true && (?x <? 8) =>
        destruct (Z.ltb_spec x 8); try reflexivity; lia
    end.
Qed.

Lemma isdigit_ok (c : ascii) : Libc.isdigit c = digit_ok 10 c.
Proof.
  unfold digit_ok, Libc.isxdigit, Libc.digit_value, Libc.isdigit.
  pose proof (code_range c).
  destruct (Z.leb_spec 48 (Libc.code c)), (Z.leb_spec (Libc.code c) 57),
    (Z.leb_spec 97 (Libc.code c)),
    (Z.leb_spec (Libc.code c) 102), (Z.leb_spec 65 (Libc.code c)),
    (Z.leb_spec (Libc.code c) 70); cbn [andb orb]; try lia;
    try reflexivity;
    match goal with
    | |- _ = (?x <? 10) => destruct (Z.ltb_spec x 10); try reflexivity; lia
    | |- _ = true && (?x <? 10) =>
        destruct (Z.ltb_spec x 10); try reflexivity; lia
    end.
Qed.

Lemma hex_char_ok (c : ascii) :
  hex_char c = digit_ok 16 c /\ hex_char c = Libc.isxdigit c.
Proof.
  unfold hex_char, digit_ok, Libc.isxdigit, Libc.digit_value, Libc.isdigit.
  pose proof (code_range c).
  destruct (Z.leb_spec 48 (Libc.code c)), (Z.leb_spec (Libc.code c) 57),
    (Z.leb_spec 97 (Libc.code c)),
    (Z.leb_spec (Libc.code c) 102), (Z.leb_spec 65 (Libc.code c)),
    (Z.leb_spec (Libc.code c) 70); cbn [andb orb]; try lia;
    split; try reflexivity;
    match goal with
    | |- _ = (?x <? 16) => destruct (Z.ltb_spec x 16); try reflexivity; lia
    | |- _ = true && (?x <? 16) =>
        destruct (Z.ltb_spec x 16); try reflexivity; lia
    end.
Qed.

Lemma hex_digit_value_ok (c : ascii) :
  hex_char c = true -> Libc.digit_value c = hex_digit_value c /\
                       0 <= hex_digit_value c.
Proof.
  unfold hex_char, hex_digit_value, Libc.digit_value, Libc.isdigit.
  pose proof (code_range c).
  destruct (Z.leb_spec 48 (Libc.code c)), (Z.leb_spec (Libc.code c) 57),
    (Z.leb_spec 97 (Libc.code c)),
    (Z.leb_spec (Libc.code c) 102), (Z.leb_spec 65 (Libc.code c)),
    (Z.leb_spec (Libc.code c) 70); cbn [andb orb]; try lia;
    intros H; try discriminate H; split; lia.
Qed.

Lemma dec_digit_value_ok (c : ascii) :
  Libc.isdigit c = true -> Libc.digit_value c = Libc.code c - 48 /\
                           0 <= Libc.code c - 48.
Proof.
  intros H. unfold Libc.digit_value. rewrite H. split; [reflexivity|].
  unfold Libc.isdigit in H. apply andb_true_iff in H. destruct H as [H _].
  apply Z.leb_le in H. lia.
Qed.

(** *** Runs of digits *)

Lemma forallb_string_ext (f g : ascii -> bool) (t : string) :
  (forall c, f c = g c) ->
  forallb f (list_ascii_of_string t) = forallb g (list_ascii_of_string t).
Proof.
  intros H. induction t as [|c t IH]; [reflexivity|].
  cbn [list_ascii_of_string forallb]. rewrite H, IH. reflexivity.
Qed.

Lemma scan_run (base : Z) (val : ascii -> Z) (value : string -> Z -> Z)
      (t rest : string) :
  (forall c t' acc, value (String c t') acc = value t' (acc * base + val c)) ->
  (forall acc, value EmptyString acc = acc) ->
  (forall c, digit_ok base c = true -> Libc.digit_value c = val c) ->
  forallb (digit_ok base) (list_ascii_of_string t) = true ->
  starts_sep rest = true ->
  forall acc, Libc.scan_digits base (t ++ rest) acc = (value t acc, rest).
Proof.
  intros Hcons Hnil Hval Ht Hr. induction t as [|c t IH]; intros acc.
  - cbn [append]. rewrite Hnil. destruct rest as [|x r]; [reflexivity|].
    cbn [starts_sep] in Hr. cbn [Libc.scan_digits].
    pose proof (sep_not_digit_ok base x Hr) as Hx. unfold digit_ok in Hx.
    rewrite Hx. reflexivity.
  - cbn [list_ascii_of_string forallb] in Ht. apply andb_true_iff in Ht.
    destruct Ht as [Hc Ht]. cbn [append Libc.scan_digits].
    pose proof Hc as Hc'. unfold digit_ok in Hc'. rewrite Hc'.
    rewrite (Hval c Hc), Hcons. apply IH. exact Ht.
Qed.

Lemma scan_stops_inside (base : Z) (p rest : string) :
  forallb (digit_ok base) (list_ascii_of_string p) = false ->
  no_sep p = true ->
  forall acc, exists v c r,
    Libc.scan_digits base (p ++ rest) acc = (v, String c r) /\
    sep_char c = false.
Proof.
  unfold no_sep. induction p as [|c p IH]; intros Hbad Hsep acc.
  - discriminate Hbad.
  - cbn [list_ascii_of_string forallb] in Hbad, Hsep.
    apply andb_true_iff in Hsep. destruct Hsep as [Hc Hsep].
    apply negb_true_iff in Hc. cbn [append Libc.scan_digits].
    destruct (digit_ok base c) eqn:Eok.
    + cbn [andb] in Hbad. unfold digit_ok in Eok. rewrite Eok.
      apply IH; assumption.
    + unfold digit_ok in Eok. rewrite Eok.
      exists acc, c, (p ++ rest)%string. split; [reflexivity|exact Hc].
Qed.

Lemma radix_value_nonneg (base : Z) (t : string) :
  0 <= base -> all_digits t = true ->
  forall acc, 0 <= acc -> 0 <= radix_value base t acc.
Proof.
  intros Hb. unfold all_digits. induction t as [|c t IH]; intros Ht acc Hacc.
  - exact Hacc.
  - cbn [list_ascii_of_string forallb] in Ht. apply andb_true_iff in Ht.
    destruct Ht as [Hc Ht]. cbn [radix_value]. apply IH; [exact Ht|].
    destruct (dec_digit_value_ok c Hc) as [_ H0]. nia.
Qed.

Lemma hex_value_nonneg (t : string) :
  hex_digits t = true -> forall acc, 0 <= acc -> 0 <= hex_value t acc.
Proof.
  unfold hex_digits. induction t as [|c t IH]; intros Ht acc Hacc.
  - exact Hacc.
  - cbn [list_ascii_of_string forallb] in Ht. apply andb_true_iff in Ht.
    destruct Ht as [Hc Ht]. cbn [hex_value]. apply IH; [exact Ht|].
    destruct (hex_digit_value_ok c Hc) as [_ H0]. lia.
Qed.

Lemma octal_digits_are_digits (t : string) :
  octal_digits t = true -> all_digits t = true.
Proof.
  unfold octal_digits, all_digits. induction t as [|c t IH]; [reflexivity|].
  cbn [list_ascii_of_string forallb]. intros H. apply andb_true_iff in H.
  destruct H as [Hc Ht]. rewrite (IH Ht), andb_true_r.
  unfold octal_char in Hc. unfold Libc.isdigit.
  apply andb_true_iff in Hc. destruct Hc as [H1 H2].
  apply Z.leb_le in H1. apply Z.leb_le in H2.
  apply andb_true_iff. split; apply Z.leb_le; lia.
Qed.

Lemma scan_octal_run (t rest : string) :
  octal_digits t = true -> starts_sep rest = true ->
  forall acc, Libc.scan_digits 8 (t ++ rest) acc = (radix_value 8 t acc, rest).
Proof.
  intros Ht Hr. apply (scan_run 8 (fun c => Libc.code c - 48)).
  - reflexivity.
  - reflexivity.
  - intros c Hc. rewrite <- octal_char_ok in Hc.
    assert (Hd : Libc.isdigit c = true).
    { unfold octal_char in Hc. unfold Libc.isdigit.
      apply andb_true_iff in Hc. destruct Hc as [H1 H2].
      apply Z.leb_le in H1. apply Z.leb_le in H2.
      apply andb_true_iff. split; apply Z.leb_le; lia. }
    apply dec_digit_value_ok, Hd.
  - unfold octal_digits in Ht.
    rewrite <- (forallb_string_ext _ _ t octal_char_ok). exact Ht.
  - exact Hr.
Qed.

Lemma scan_decimal_run (t rest : string) :
  all_digits t = true -> starts_sep rest = true ->
  forall acc,
    Libc.scan_digits 10 (t ++ rest) acc = (radix_value 10 t acc, rest).
Proof.
  intros Ht Hr. apply (scan_run 10 (fun c => Libc.code c - 48)).
  - reflexivity.
  - reflexivity.
  - intros c Hc. rewrite <- isdigit_ok in Hc. apply dec_digit_value_ok, Hc.
  - unfold all_digits in Ht.
    rewrite <- (forallb_string_ext _ _ t isdigit_ok). exact Ht.
  - exact Hr.
Qed.

Lemma scan_hex_run (t rest : string) :
  hex_digits t = true -> starts_sep rest = true ->
  forall acc, Libc.scan_digits 16 (t ++ rest) acc = (hex_value t acc, rest).
Proof.
  intros Ht Hr. apply (scan_run 16 hex_digit_value).
  - reflexivity.
  - reflexivity.
  - intros c Hc. apply hex_digit_value_ok.
    rewrite (proj1 (hex_char_ok c)). exact Hc.
  - unfold hex_digits in Ht.
    rewrite <- (forallb_string_ext _ _ t (fun c => proj1 (hex_char_ok c))).
    exact Ht.
  - exact Hr.
Qed.

(** *** One number *)

Lemma scan_octal_entry (c0 : ascii) (tail : string) :
  (Libc.code c0 =? 48) = true ->
  Libc.scan_digits 8 (String c0 tail) 0 = Libc.scan_digits 8 tail 0.
Proof.
  intros E. apply Z.eqb_eq in E. cbn [Libc.scan_digits].
  unfold Libc.isxdigit, Libc.digit_value, Libc.isdigit. rewrite E.
  reflexivity.
Qed.

Lemma zero_is_digit (c0 : ascii) :
  (Libc.code c0 =? 48) = true -> Libc.isdigit c0 = true.
Proof.
  intros E. apply Z.eqb_eq in E. unfold Libc.isdigit. rewrite E. reflexivity.
Qed.

Lemma x_not_octal (x : ascii) (tail : string) (acc : Z) :
  Libc.is_x x = true ->
  Libc.scan_digits 8 (String x tail) acc = (acc, String x tail).
Proof.
  intros Hx. cbn [Libc.scan_digits].
  assert (E : Libc.isxdigit x = false).
  { unfold Libc.is_x in Hx. unfold Libc.isxdigit, Libc.isdigit.
    apply orb_true_iff in Hx.
    destruct Hx as [Hx|Hx]; apply Z.eqb_eq in Hx; rewrite Hx; reflexivity. }
  rewrite E. reflexivity.
Qed.

Lemma strtoul_octal_branch (c0 x : ascii) (tail : string) :
  (Libc.code c0 =? 48) = true ->
  Libc.is_x x = false ->
  Libc.strtoul_base0 (String c0 (String x tail))
  = Libc.scan_digits 8 (String x tail) 0.
Proof.
  intros E0 Ex. unfold Libc.strtoul_base0. rewrite E0.
  rewrite <- (scan_octal_entry c0 (String x tail) E0).
  destruct tail as [|h tl]; [reflexivity|]. rewrite Ex. reflexivity.
Qed.

Lemma strtoul_number (p rest : string) :
  no_sep p = true ->
  starts_sep rest = true ->
  match number_value p with
  | Some v =>
      first_is_digit p = true /\
      Libc.strtoul_base0 (p ++ rest) = (v, rest) /\ 0 <= v
  | None =>
      first_is_digit (p ++ rest) = false \/
      exists v c r,
        Libc.strtoul_base0 (p ++ rest) = (v, String c r) /\
        sep_char c = false
  end.
Proof.
  intros Hp Hr. destruct p as [|c0 q].
  { cbn [number_value append]. left.
    destruct rest as [|c r]; [reflexivity|]. cbn [starts_sep] in Hr.
    cbn [first_is_digit]. apply (sep_facts c Hr). }
  pose proof Hp as Hp0. unfold no_sep in Hp0.
  cbn [list_ascii_of_string forallb] in Hp0. apply andb_true_iff in Hp0.
  destruct Hp0 as [Hc0 Hq]. apply negb_true_iff in Hc0.
  fold (no_sep q) in Hq.
  cbn [number_value]. destruct (Libc.code c0 =? 48) eqn:E0.
  - (* leading zero *)
    destruct q as [|x h].
    + (* the number 0 *)
      split; [exact (zero_is_digit c0 E0)|]. split; [|lia].
      cbn [append].
      assert (E : Libc.scan_digits 8 (String c0 rest) 0 = (0, rest)).
      { rewrite scan_octal_entry by exact E0.
        apply (scan_octal_run EmptyString rest eq_refl Hr 0). }
      destruct rest as [|s0 tl].
      * unfold Libc.strtoul_base0. rewrite E0. exact E.
      * cbn [starts_sep] in Hr.
        rewrite strtoul_octal_branch; [|exact E0|apply (sep_facts s0 Hr)].
        rewrite <- (scan_octal_entry c0 _ E0). exact E.
    + pose proof Hq as Hq0. unfold no_sep in Hq0.
      cbn [list_ascii_of_string forallb] in Hq0.
      apply andb_true_iff in Hq0. destruct Hq0 as [Hx Hh].
      apply negb_true_iff in Hx. fold (no_sep h) in Hh.
      change ((Libc.code x =? 120) || (Libc.code x =? 88))
        with (Libc.is_x x).
      destruct (Libc.is_x x) eqn:Ex.
      * (* 0x... *)
        assert (Eoct : forall tail,
                   Libc.scan_digits 8 (String c0 (String x tail)) 0
                   = (0, String x tail)).
        { intros tail. rewrite scan_octal_entry by exact E0.
          apply x_not_octal, Ex. }
        destruct h as [|h0 h'].
        { right. exists 0, x, rest. split; [|exact Hx].
          cbn [append]. unfold Libc.strtoul_base0. rewrite E0.
          destruct rest as [|s0 tl]; [apply Eoct|].
          cbn [starts_sep] in Hr.
          destruct (sep_facts s0 Hr) as (_ & _ & Hxd & _).
          rewrite Hxd, andb_false_r. apply Eoct. }
        cbn [append]. unfold Libc.strtoul_base0. rewrite E0, Ex.
        cbn [andb]. destruct (hex_digits (String h0 h')) eqn:Eh.
        { assert (Hh0 : Libc.isxdigit h0 = true).
          { unfold hex_digits in Eh.
            cbn [list_ascii_of_string forallb] in Eh.
            apply andb_true_iff in Eh. destruct Eh as [Eh _].
            rewrite <- (proj2 (hex_char_ok h0)). exact Eh. }
          rewrite Hh0. split; [exact (zero_is_digit c0 E0)|].
          split; [|apply hex_value_nonneg; [exact Eh|lia]].
          apply (scan_hex_run (String h0 h') rest Eh Hr 0). }
        right. destruct (Libc.isxdigit h0) eqn:Hh0.
        { apply (scan_stops_inside 16 (String h0 h') rest); [|exact Hh].
          unfold hex_digits in Eh.
          rewrite <- (forallb_string_ext _ _ _
                        (fun c => proj1 (hex_char_ok c))).
          exact Eh. }
        exists 0, x, (String h0 (h' ++ rest)). split; [apply Eoct|exact Hx].
      * (* octal *)
        cbn [append]. rewrite strtoul_octal_branch by assumption.
        change (String x (h ++ rest)) with (String x h ++ rest)%string.
        destruct (octal_digits (String x h)) eqn:Eo.
        { split; [exact (zero_is_digit c0 E0)|].
          split; [apply scan_octal_run; assumption|].
          apply radix_value_nonneg; [lia| |lia].
          apply octal_digits_are_digits, Eo. }
        right. apply (scan_stops_inside 8 (String x h) rest); [|exact Hq].
        unfold octal_digits in Eo.
        rewrite <- (forallb_string_ext _ _ _ octal_char_ok). exact Eo.
  - (* decimal *)
    assert (Es : Libc.strtoul_base0 (String c0 q ++ rest)
                 = Libc.scan_digits 10 (String c0 q ++ rest) 0).
    { cbn [append]. unfold Libc.strtoul_base0. rewrite E0. reflexivity. }
    destruct (all_digits (String c0 q)) eqn:Ep.
    + split.
      { unfold all_digits in Ep. cbn [list_ascii_of_string forallb] in Ep.
        apply andb_true_iff in Ep. apply Ep. }
      split; [|apply radix_value_nonneg; [lia|exact Ep|lia]].
      rewrite Es. apply scan_decimal_run; assumption.
    + destruct (Libc.isdigit c0) eqn:Ed; [right|left; exact Ed].
      rewrite Es. apply (scan_stops_inside 10 (String c0 q) rest);
        [|exact Hp].
      unfold all_digits in Ep.
      rewrite <- (forallb_string_ext _ _ _ isdigit_ok). exact Ep.
Qed.

(** *** One part of the text *)

Lemma span_part_spec (s : string) :
  s = (fst (span_part s) ++ snd (span_part s))%string /\
  no_sep (fst (span_part s)) = true /\
  starts_sep (snd (span_part s)) = true.
Proof.
  unfold no_sep. induction s as [|c s IH].
  - repeat split.
  - cbn [span_part]. destruct (sep_char c) eqn:Ec.
    + cbn [fst snd append list_ascii_of_string forallb starts_sep].
      repeat split. exact Ec.
    + destruct (span_part s) as [p r]. cbn [fst snd] in *.
      destruct IH as (E & Hp & Hr).
      cbn [append list_ascii_of_string forallb]. rewrite Ec, Hp.
      repeat split; [rewrite <- E; reflexivity|exact Hr].
Qed.

Lemma finish_loop_step (fuel : nat) (s : string) (pp : list Z) :
  finish (Libc.inet_aton_loop (S fuel) s pp)
  = match number_value (fst (span_part s)) with
    | None => None
    | Some v =>
        if v >? 4294967295 then None
        else
          match snd (span_part s) with
          | String c r =>
              if Libc.code c =? 46 then
                if (2 <? List.length pp)%nat || (v >? 255) then None
                else finish (Libc.inet_aton_loop fuel r (pp ++ [v]))
              else if v >? Libc.last_max (List.length pp) then None
                   else Some (Libc.or_last pp v)
          | EmptyString =>
              if v >? Libc.last_max (List.length pp) then None
              else Some (Libc.or_last pp v)
          end
    end.
Proof.
  destruct (span_part_spec s) as (E & Hp & Hr).
  pose proof (strtoul_number _ _ Hp Hr) as Hn.
  destruct (span_part s) as [p rest]. cbn [fst snd] in *. subst s.
  destruct (number_value p) as [v|].
  - destruct Hn as (Hd & Hs & Hv).
    destruct p as [|c0 q]; [discriminate Hd|]. cbn [first_is_digit] in Hd.
    change (String c0 q ++ rest)%string with (String c0 (q ++ rest)) in *.
    rewrite inet_aton_loop_unfold, Hd. cbn [negb]. rewrite Hs.
    destruct (v >? 4294967295); [reflexivity|].
    destruct rest as [|c r]; [reflexivity|]. cbn [starts_sep] in Hr.
    destruct (Libc.code c =? 46) eqn:Edot.
    + destruct ((2 <? List.length pp)%nat || (v >? 255)); reflexivity.
    + cbn [finish]. cbv zeta.
      rewrite (proj2 (proj2 (proj2 (sep_facts c Hr))) Edot). reflexivity.
  - destruct (p ++ rest)%string as [|c0 s0] eqn:Es; [reflexivity|].
    rewrite inet_aton_loop_unfold.
    destruct Hn as [Hd|(v & c & r & Hs & Hc)].
    + cbn [first_is_digit] in Hd. rewrite Hd. reflexivity.
    + destruct (negb (Libc.isdigit c0)); [reflexivity|].
      rewrite Hs. destruct (v >? 4294967295); [reflexivity|].
      destruct (not_sep_garbage c Hc) as [Edot Eg]. rewrite Edot.
      cbn [finish]. cbv zeta. rewrite Eg. reflexivity.
Qed.

Lemma before_space_no_sep (p : string) :
  no_sep p = true -> before_space p = p.
Proof.
  unfold no_sep. induction p as [|c p IH]; [reflexivity|].
  cbn [list_ascii_of_string forallb before_space]. intros H.
  apply andb_true_iff in H. destruct H as [Hc Hp].
  apply negb_true_iff in Hc. unfold sep_char in Hc.
  apply orb_false_iff in Hc. destruct Hc as [_ Hw]. rewrite Hw, (IH Hp).
  reflexivity.
Qed.

Lemma before_space_app (p : string) (c : ascii) (r : string) :
  no_sep p = true ->
  before_space (p ++ String c r)
  = (p ++ (if white_space c then EmptyString
           else String c (before_space r)))%string.
Proof.
  unfold no_sep. induction p as [|x p IH]; [reflexivity|].
  cbn [list_ascii_of_string forallb append before_space]. intros H.
  apply andb_true_iff in H. destruct H as [Hx Hp].
  apply negb_true_iff in Hx. unfold sep_char in Hx.
  apply orb_false_iff in Hx. destruct Hx as [_ Hw]. rewrite Hw, (IH Hp).
  reflexivity.
Qed.

Lemma split_dots_nonempty (s : string) : split_dots s <> [].
Proof.
  destruct s as [|c s]; cbn [split_dots]; [discriminate|].
  destruct (Libc.code c =? 46); [discriminate|].
  destruct (split_dots s); discriminate.
Qed.

Lemma split_dots_no_sep (p : string) :
  no_sep p = true -> split_dots p = [p].
Proof.
  unfold no_sep. induction p as [|c p IH]; [reflexivity|].
  cbn [list_ascii_of_string forallb split_dots]. intros H.
  apply andb_true_iff in H. destruct H as [Hc Hp].
  apply negb_true_iff in Hc. unfold sep_char in Hc.
  apply orb_false_iff in Hc. destruct Hc as [Hd _]. rewrite Hd, (IH Hp).
  reflexivity.
Qed.

Lemma split_dots_app (p : string) (c : ascii) (r : string) :
  no_sep p = true -> (Libc.code c =? 46) = true ->
  split_dots (p ++ String c r) = p :: split_dots r.
Proof.
  unfold no_sep. intros Hp Hc. induction p as [|x p IH].
  - cbn [append split_dots]. rewrite Hc. reflexivity.
  - cbn [list_ascii_of_string forallb] in Hp. apply andb_true_iff in Hp.
    destruct Hp as [Hx Hp]. apply negb_true_iff in Hx.
    unfold sep_char in Hx. apply orb_false_iff in Hx.
    destruct Hx as [Hd _]. cbn [append split_dots]. rewrite Hd, (IH Hp).
    reflexivity.
Qed.

Lemma address_numbers_step (s : string) :
  address_numbers s
  = match number_value (fst (span_part s)) with
    | None => None
    | Some v =>
        match snd (span_part s) with
        | String c r =>
            if Libc.code c =? 46 then
              match address_numbers r with
              | Some vs => Some (v :: vs)
              | None => None
              end
            else Some [v]
        | EmptyString => Some [v]
        end
    end.
Proof.
  destruct (span_part_spec s) as (E & Hp & Hr).
  destruct (span_part s) as [p rest]. cbn [fst snd] in *. subst s.
  unfold address_numbers. destruct rest as [|c r].
  - rewrite append_empty, before_space_no_sep, split_dots_no_sep by exact Hp.
    cbn [map all_some]. destruct (number_value p); reflexivity.
  - cbn [starts_sep] in Hr. rewrite before_space_app by exact Hp.
    destruct (Libc.code c =? 46) eqn:Edot.
    + assert (Hw : white_space c = false).
      { unfold white_space. cbn [existsb]. apply Z.eqb_eq in Edot.
        rewrite Edot. reflexivity. }
      rewrite Hw, split_dots_app by assumption.
      cbn [map all_some]. destruct (number_value p); reflexivity.
    + unfold sep_char in Hr. rewrite Edot in Hr. cbn [orb] in Hr.
      rewrite Hr, append_empty, split_dots_no_sep by exact Hp.
      cbn [map all_some]. destruct (number_value p); reflexivity.
Qed.

Lemma address_numbers_nonempty (s : string) (vs : list Z) :
  address_numbers s = Some vs -> vs <> [].
Proof.
  unfold address_numbers. pose proof (split_dots_nonempty (before_space s)).
  destruct (split_dots (before_space s)) as [|p ps]; [contradiction|].
  cbn [map all_some]. destruct (number_value p); [|discriminate].
  destruct (all_some (map number_value ps)); [|discriminate].
  intros H1. apply Some_inj' in H1. subst vs. discriminate.
Qed.

Lemma number_value_nonneg (p : string) (v : Z) :
  number_value p = Some v -> 0 <= v.
Proof.
  intros Ev. destruct p as [|c0 q]; [discriminate Ev|].
  cbn [number_value] in Ev.
  destruct (Libc.code c0 =? 48).
  - destruct q as [|x h]; [apply Some_inj' in Ev; lia|].
    destruct ((Libc.code x =? 120) || (Libc.code x =? 88)).
    + destruct h as [|h0 h']; [discriminate Ev|].
      destruct (hex_digits (String h0 h')) eqn:Eh; [|discriminate Ev].
      apply Some_inj' in Ev. subst v. apply hex_value_nonneg; [exact Eh|lia].
    + destruct (octal_digits (String x h)) eqn:Eo; [|discriminate Ev].
      apply Some_inj' in Ev. subst v.
      apply radix_value_nonneg; [lia|apply octal_digits_are_digits, Eo|lia].
  - destruct (all_digits (String c0 q)) eqn:Ed; [|discriminate Ev].
    apply Some_inj' in Ev. subst v.
    apply radix_value_nonneg; [lia|exact Ed|lia].
Qed.

Lemma address_numbers_nonneg (s : string) :
  forall vs, address_numbers s = Some vs -> Forall (fun v => 0 <= v) vs.
Proof.
  unfold address_numbers.
  induction (split_dots (before_space s)) as [|p ps IH]; intros vs.
  - cbn [map all_some]. intros H. apply Some_inj' in H. subst vs. constructor.
  - cbn [map all_some]. destruct (number_value p) as [v|] eqn:Ev;
      [|discriminate].
    destruct (all_some (map number_value ps)) as [r|]; [|discriminate].
    intros H. apply Some_inj' in H. subst vs.
    constructor; [exact (number_value_nonneg p v Ev)|apply IH; reflexivity].
Qed.

(** *** The whole text *)

Lemma last_max_le (n : nat) : Libc.last_max n <= 4294967295.
Proof.
  unfold Libc.last_max.
  destruct n as [|[|[|[|[|n]]]]]; cbn [nth]; lia.
Qed.

Lemma address_value_long (l : list Z) :
  (5 <= List.length l)%nat -> address_value l = None.
Proof.
  destruct l as [|a [|b [|c [|d [|e l]]]]]; cbn [List.length]; try lia.
  reflexivity.
Qed.

Lemma address_value_last (pp : list Z) (v : Z) :
  (List.length pp <= 3)%nat ->
  Forall (fun x => 0 <= x <= 255) pp ->
  0 <= v ->
  address_value (pp ++ [v])
  = if v >? Libc.last_max (List.length pp) then None
    else Some (Libc.or_last pp v).
Proof.
  intros Hl Hpp Hv.
  destruct pp as [|a [|b [|c [|d pp]]]]; cbn [List.length] in Hl; try lia;
    cbn [app address_value List.length].
  - change (Libc.last_max 0) with 4294967295. rewrite leb_gtb.
    destruct (v <=? 4294967295); [|reflexivity].
    cbn [negb]. rewrite or_last_single. reflexivity.
  - change (Libc.last_max 1) with 16777215. rewrite leb_gtb.
    inversion Hpp as [|? ? Ha _]; subst.
    destruct (Z.leb_spec a 255); [|lia]. cbn [andb].
    destruct (Z.leb_spec v 16777215); [|reflexivity].
    cbn [negb]. rewrite or_last_two by lia. reflexivity.
  - change (Libc.last_max 2) with 65535. rewrite leb_gtb.
    inversion Hpp as [|? ? Ha Hpp']; subst.
    inversion Hpp' as [|? ? Hb _]; subst.
    destruct (Z.leb_spec a 255); [|lia].
    destruct (Z.leb_spec b 255); [|lia]. cbn [andb].
    destruct (Z.leb_spec v 65535); [|reflexivity].
    cbn [negb]. rewrite or_last_three by lia. reflexivity.
  - change (Libc.last_max 3) with 255. rewrite leb_gtb.
    inversion Hpp as [|? ? Ha Hpp']; subst.
    inversion Hpp' as [|? ? Hb Hpp'']; subst.
    inversion Hpp'' as [|? ? Hc _]; subst.
    destruct (Z.leb_spec a 255); [|lia].
    destruct (Z.leb_spec b 255); [|lia].
    destruct (Z.leb_spec c 255); [|lia]. cbn [andb].
    destruct (Z.leb_spec v 255); [|reflexivity].
    cbn [negb]. rewrite or_last_octets by lia. reflexivity.
Qed.

Lemma address_value_inner (pp : list Z) (v : Z) (vs : list Z) :
  255 < v -> vs <> [] -> address_value (pp ++ v :: vs) = None.
Proof.
  intros Hv Hvs.
  assert (Ev : (v <=? 255) = false) by (apply Z.leb_gt; lia).
  destruct vs as [|w vs]; [contradiction|].
  destruct pp as [|a [|b [|c pp]]]; cbn [app];
    [destruct vs as [|x [|y [|z vs]]]
    |destruct vs as [|x [|y vs]]
    |destruct vs as [|x vs]
    |apply address_value_long; cbn [List.length]; rewrite length_app;
     cbn [List.length]; lia];
    cbn [address_value]; rewrite ?Ev, ?andb_false_r; try reflexivity.
  all: cbn [andb]; rewrite ?andb_false_r; reflexivity.
Qed.

Lemma finish_loop_forms (fuel : nat) :
  forall (s : string) (pp : list Z),
    (List.length pp + fuel = 4)%nat ->
    Forall (fun x => 0 <= x <= 255) pp ->
    finish (Libc.inet_aton_loop fuel s pp)
    = match address_numbers s with
      | Some vals => address_value (pp ++ vals)
      | None => None
      end.
Proof.
  induction fuel as [|fuel IH]; intros s pp Hl Hpp.
  - cbn [Libc.inet_aton_loop finish].
    destruct (address_numbers s) as [vals|] eqn:E; [|reflexivity].
    symmetry. apply address_value_long.
    pose proof (address_numbers_nonempty s vals E).
    rewrite length_app. destruct vals; [contradiction|].
    cbn [List.length]. lia.
  - rewrite finish_loop_step, address_numbers_step.
    destruct (number_value (fst (span_part s))) as [v|] eqn:Ev;
      [|reflexivity].
    pose proof (number_value_nonneg _ _ Ev) as Hv.
    assert (Hlast : (if v >? 4294967295 then None
                     else if v >? Libc.last_max (List.length pp) then None
                          else Some (Libc.or_last pp v))
                    = address_value (pp ++ [v])).
    { rewrite address_value_last by (lia || assumption).
      destruct (Z.gtb_spec v 4294967295); [|reflexivity].
      pose proof (last_max_le (List.length pp)).
      destruct (Z.gtb_spec v (Libc.last_max (List.length pp)));
        [reflexivity|lia]. }
    destruct (snd (span_part s)) as [|c r]; [exact Hlast|].
    destruct (Libc.code c =? 46); [|exact Hlast].
    assert (Hinner : 255 < v ->
                     None = match address_numbers r with
                            | Some vs => address_value (pp ++ v :: vs)
                            | None => None
                            end).
    { intros Hbig. destruct (address_numbers r) as [vs|] eqn:Er;
        [|reflexivity].
      symmetry. apply address_value_inner; [exact Hbig|].
      exact (address_numbers_nonempty r vs Er). }
    assert (Hgoal : forall x : option (list byte),
               x = match address_numbers r with
                   | Some vs => address_value (pp ++ v :: vs)
                   | None => None
                   end ->
               x = match
                     match address_numbers r with
                     | Some vs => Some (v :: vs)
                     | None => None
                     end
                   with
                   | Some vals => address_value (pp ++ vals)
                   | None => None
                   end).
    { intros x ->. destruct (address_numbers r); reflexivity. }
    apply Hgoal.
    destruct (Z.gtb_spec v 4294967295); [apply Hinner; lia|].
    destruct (Nat.ltb_spec 2 (List.length pp)) as [Hlong|Hshort].
    + cbn [orb]. destruct (address_numbers r) as [vs|] eqn:Er;
        [|reflexivity].
      symmetry. apply address_value_long.
      pose proof (address_numbers_nonempty r vs Er).
      rewrite length_app. destruct vs; [contradiction|].
      cbn [List.length]. lia.
    + cbn [orb]. destruct (Z.gtb_spec v 255); [apply Hinner; lia|].
      rewrite IH.
      * destruct (address_numbers r); [|reflexivity].
        rewrite <- app_assoc. reflexivity.
      * rewrite length_app. cbn [List.length]. lia.
      * apply Forall_app. split; [exact Hpp|].
        constructor; [lia|constructor].
Qed.

(** [inet_aton] accepts exactly the forms of its manual, with the value
    they denote. *)
Lemma inet_aton_is_forms (s : string) :
  Libc.inet_aton s = inet_aton_forms s.
Proof.
  rewrite inet_aton_finish. unfold inet_aton_forms.
  rewrite finish_loop_forms by (reflexivity || constructor).
  reflexivity.
Qed.

(** * The claims on address text, digests and saved rows *)

Lemma get_ip_forms (self : IPAssignment) :
  get_ip self
  = if PyLib.has_nul (ip self) then Raise TypeError
    else match inet_aton_forms (ip self) with
         | Some bs => Ok bs
         | None => Raise SocketError
         end.
Proof.
  unfold get_ip, PyLib.inet_aton. rewrite inet_aton_is_forms. reflexivity.
Qed.

Lemma get_ip_outside_forms (self : IPAssignment) :
  inet_aton_forms (ip self) = None -> raises (get_ip self).
Proof.
  intros H. rewrite get_ip_forms, H.
  destruct (PyLib.has_nul (ip self));
    [exists TypeError|exists SocketError]; reflexivity.
Qed.

Lemma get_ip_value_in_forms (self : IPAssignment) (bs : list byte) :
  get_ip self = Ok bs ->
  inet_aton_forms (ip self) = Some bs /\ PyLib.has_nul (ip self) = false.
Proof.
  rewrite get_ip_forms. destruct (PyLib.has_nul (ip self));
    [intros H; discriminate H|].
  destruct (inet_aton_forms (ip self)) as [l|]; intros H;
    [|discriminate H].
  apply Ok_inj in H. subst l. split; reflexivity.
Qed.

Lemma text_get_ip (row : TextRow.IPAssignment) :
  TextRow.get_ip row
  = match as_str (TextRow.ip row) with
    | Ok s => get_ip (with_ip s)
    | Raise _ => Raise UnicodeEncodeError
    end.
Proof.
  unfold TextRow.get_ip, as_str.
  destruct (TextRow.ip row) as [s|u]; [reflexivity|].
  destruct (encodable (Unicode u)); reflexivity.
Qed.

Lemma text_get_mac (row : TextRow.IPAssignment) :
  TextRow.get_mac row
  = if encodable (TextRow.ip row)
    then match as_str (TextRow.ip row) with
         | Ok s => get_mac (with_ip s)
         | Raise e => Raise e
         end
    else Raise UnicodeEncodeError.
Proof.
  unfold TextRow.get_mac, as_str.
  destruct (TextRow.ip row) as [s|u]; [reflexivity|].
  destruct (encodable (Unicode u)); reflexivity.
Qed.

Lemma text_get_mac_returns (row : TextRow.IPAssignment) :
  encodable (TextRow.ip row) = true ->
  exists bs, TextRow.get_mac row = Ok bs /\ List.length bs = 6%nat.
Proof.
  intros He. rewrite text_get_mac, He. unfold as_str.
  destruct (TextRow.ip row) as [s|u].
  - exists (x00 :: firstn 5 (PyLib.md5_digest s)).
    split; [apply get_mac_eq|apply mac_length].
  - rewrite He. eexists. split; [apply get_mac_eq|apply mac_length].
Qed.

Lemma text_get_mac_raises (row : TextRow.IPAssignment) :
  encodable (TextRow.ip row) = false ->
  TextRow.get_mac row = Raise UnicodeEncodeError.
Proof.
  intros He. rewrite text_get_mac, He. reflexivity.
Qed.

Lemma encodable_false (t : text) :
  encodable t = false ->
  exists u c, t = Unicode u /\ In c u /\ ~ (0 <= c < 128).
Proof.
  destruct t as [s|u]; [intros H; discriminate H|]. cbn [encodable].
  induction u as [|c u IH]; [intros H; discriminate H|].
  cbn [forallb]. intros H. apply andb_false_iff in H.
  destruct H as [H|H].
  - exists (c :: u), c. split; [reflexivity|]. split; [left; reflexivity|].
    apply andb_false_iff in H.
    destruct H as [H|H];
      [apply Z.leb_gt in H|apply Z.ltb_ge in H]; lia.
  - destruct (IH H) as (u' & c' & E & Hin & Hc).
    injection E as <-. exists (c :: u), c'.
    split; [reflexivity|]. split; [right; exact Hin|exact Hc].
Qed.

(** C3 (amended). [get_ip] returns a value exactly on the texts in one of
    the forms of [inet_aton], and the value is the one the form denotes:
    one to four numbers joined by dots, each written as in C (decimal,
    octal with a leading 0, hexadecimal with 0x), all but the last at most
    255 and the last filling the remaining bytes, optionally followed by
    white space; every other text fails, with [socket.error] (with
    [TypeError] when it has a null byte, with [UnicodeEncodeError] when it
    is a unicode string with a character above 127).  In particular the
    text of four decimal numbers from 0 to 255 without leading zeros gives
    these four numbers as four bytes in that order (big-endian), every
    value returned has four bytes, every text that does not start with a
    decimal digit fails, and 999.1.1.1 and not-an-ip fail with
    [socket.error]. *)
Theorem get_ip_parses (self : IPAssignment) :
  get_ip self
  = (if PyLib.has_nul (ip self) then Raise TypeError
     else match inet_aton_forms (ip self) with
          | Some bs => Ok bs
          | None => Raise SocketError
          end) /\
  (inet_aton_forms (ip self) = None -> raises (get_ip self)) /\
  (forall a b c d,
     0 <= a <= 255 -> 0 <= b <= 255 -> 0 <= c <= 255 -> 0 <= d <= 255 ->
     ip self = quad_text a b c d ->
     get_ip self = Ok [byte_of_Z a; byte_of_Z b; byte_of_Z c; byte_of_Z d] /\
     be_value [byte_of_Z a; byte_of_Z b; byte_of_Z c; byte_of_Z d]
     = a * 16777216 + b * 65536 + c * 256 + d) /\
  (forall bs, get_ip self = Ok bs -> List.length bs = 4%nat) /\
  (first_is_digit (ip self) = false -> raises (get_ip self)) /\
  (ip self = "999.1.1.1"%string \/ ip self = "not-an-ip"%string ->
   get_ip self = Raise SocketError) /\
  (forall row : TextRow.IPAssignment,
     TextRow.get_ip row
     = match as_str (TextRow.ip row) with
       | Ok s => get_ip (with_ip s)
       | Raise _ => Raise UnicodeEncodeError
       end).
Proof.
  split; [apply get_ip_forms|].
  split; [apply get_ip_outside_forms|].
  split; [|split; [|split; [|split]]].
  - intros a b c d Ha Hb Hc Hd E. split.
    + unfold get_ip. rewrite E. apply inet_aton_quad; assumption.
    + apply be_value_octets; assumption.
  - apply get_ip_returns_4.
  - apply get_ip_needs_digit.
  - unfold get_ip. intros [-> | ->]; vm_compute; reflexivity.
  - apply text_get_ip.
Qed.

Lemma get_ip_parses_witness :
  get_ip (with_ip "10.0.0.1") = Ok [x0a; x00; x00; x01] /\
  be_value [x0a; x00; x00; x01] = 10 * 16777216 + 0 * 65536 + 0 * 256 + 1.
Proof.
  apply (proj1 (proj2 (proj2 (get_ip_parses (with_ip "10.0.0.1")))) 10 0 0 1);
    try lia; reflexivity.
Defined.

(** C7. For the texts 10.0.0.1 and 10.0.0.2 [get_mac] returns two values of
    six bytes, 00 19 0D AF AB 69 and 00 98 A2 CD 7E FA, which differ. *)
Theorem get_mac_distinct_samples (self other : IPAssignment) :
  ip self = "10.0.0.1"%string ->
  ip other = "10.0.0.2"%string ->
  exists m m',
    get_mac self = Ok m /\ get_mac other = Ok m' /\
    List.length m = 6%nat /\ List.length m' = 6%nat /\
    m = [x00; x19; x0d; xaf; xab; x69] /\
    m' = [x00; x98; xa2; xcd; x7e; xfa] /\
    m <> m'.
Proof.
  intros E1 E2.
  exists [x00; x19; x0d; xaf; xab; x69], [x00; x98; xa2; xcd; x7e; xfa].
  rewrite !get_mac_eq, E1, E2.
  split; [vm_compute; reflexivity|]. split; [vm_compute; reflexivity|].
  repeat (split; [reflexivity|]). intros H. discriminate H.
Qed.

Lemma get_mac_distinct_samples_witness :
  exists m m',
    get_mac (with_ip "10.0.0.1") = Ok m /\
    get_mac (with_ip "10.0.0.2") = Ok m' /\
    List.length m = 6%nat /\ List.length m' = 6%nat /\
    m = [x00; x19; x0d; xaf; xab; x69] /\
    m' = [x00; x98; xa2; xcd; x7e; xfa] /\
    m <> m'.
Proof.
  apply (get_mac_distinct_samples (with_ip "10.0.0.1") (with_ip "10.0.0.2"));
    reflexivity.
Defined.

(** C10 (as stated). The address of a row can be a unicode string; on one
    with a character above 127, here the single character U+00E9,
    [get_mac] raises [UnicodeEncodeError]. *)
Lemma get_mac_unicode_raises :
  TextRow.get_mac {| TextRow.topology := 1; TextRow.port := 1;
                     TextRow.ip := Unicode [233]; TextRow.mask := 24 |}
  = Raise UnicodeEncodeError.
Proof. reflexivity. Qed.

(** C10 (amended). [get_mac] validates nothing about the address: on every
    byte string and on every unicode string of ASCII characters, also one
    that is not an address (such as not-an-ip), it raises no error and
    returns six bytes.  It raises, with [UnicodeEncodeError], exactly when
    the text is a unicode string with a character above 127. *)
Theorem get_mac_total (self : IPAssignment) (row : TextRow.IPAssignment) :
  (exists bs, get_mac self = Ok bs /\ List.length bs = 6%nat) /\
  (encodable (TextRow.ip row) = true ->
   exists bs, TextRow.get_mac row = Ok bs /\ List.length bs = 6%nat) /\
  (encodable (TextRow.ip row) = false ->
   TextRow.get_mac row = Raise UnicodeEncodeError /\
   exists u c, TextRow.ip row = Unicode u /\ In c u /\ ~ (0 <= c < 128)) /\
  (forall s, TextRow.ip row = Str s ->
             TextRow.get_mac row = get_mac (with_ip s)) /\
  dotted_quad "not-an-ip" = false /\
  get_mac (with_ip "not-an-ip") = Ok [x00; x4f; xa1; xb8; x41; x2a].
Proof.
  split; [|split; [|split; [|split; [|split]]]].
  - exists (x00 :: firstn 5 (PyLib.md5_digest (ip self))).
    split; [apply get_mac_eq|apply mac_length].
  - apply text_get_mac_returns.
  - intros He. split; [apply text_get_mac_raises, He|].
    apply encodable_false, He.
  - intros s E. unfold TextRow.get_mac. rewrite E. reflexivity.
  - vm_compute. reflexivity.
  - vm_compute. reflexivity.
Qed.

Lemma get_mac_total_witness :
  exists bs,
    TextRow.get_mac {| TextRow.topology := 1; TextRow.port := 1;
                       TextRow.ip := Unicode [49; 48; 46; 48; 46; 48; 46; 49];
                       TextRow.mask := 24 |} = Ok bs /\
    List.length bs = 6%nat.
Proof.
  apply (proj1 (proj2 (get_mac_total
                         (with_ip "10.0.0.1")
                         {| TextRow.topology := 1; TextRow.port := 1;
                            TextRow.ip := Unicode [49; 48; 46; 48; 46; 48; 46; 49];
                            TextRow.mask := 24 |}))).
  reflexivity.
Defined.

(** C8 (amended). [get_mask] raises on every prefix length below 0 or above
    32; what it returns is the four bytes of the mask of a prefix length in
    [0,32], and the four zero bytes only for 0.  [get_ip] raises on every
    text that is not in one of the forms of [inet_aton]; what it returns
    is the four bytes the form denotes, never a truncation of them.
    [get_mac] validates nothing about the address: it returns six bytes on
    every byte string and on every unicode string of ASCII characters, and
    raises ([UnicodeEncodeError]) exactly on a unicode string with a
    character above 127. *)
Theorem helpers_on_invalid_input (self : IPAssignment)
        (row : TextRow.IPAssignment) :
  (mask self < 0 \/ 32 < mask self -> raises (get_mask self)) /\
  (forall bs, get_mask self = Ok bs ->
     0 <= mask self <= 32 /\
     bs = Py.be_bytes 4 (mask32 (mask self)) /\
     List.length bs = 4%nat /\
     be_value bs = 4294967296 - 2 ^ (32 - mask self)) /\
  (get_mask self = Ok [x00; x00; x00; x00] -> mask self = 0) /\
  (inet_aton_forms (ip self) = None -> raises (get_ip self)) /\
  (forall bs, get_ip self = Ok bs ->
     inet_aton_forms (ip self) = Some bs /\ List.length bs = 4%nat) /\
  (exists bs, get_mac self = Ok bs /\ List.length bs = 6%nat) /\
  (encodable (TextRow.ip row) = true ->
   exists bs, TextRow.get_mac row = Ok bs /\ List.length bs = 6%nat) /\
  (encodable (TextRow.ip row) = false ->
   TextRow.get_mac row = Raise UnicodeEncodeError /\
   TextRow.get_ip row = Raise UnicodeEncodeError).
Proof.
  split; [|split; [|split; [|split; [|split; [|split; [|split]]]]]].
  - intros [H|H].
    + exists StructError. apply get_mask_below_0, H.
    + exists ValueError. apply get_mask_above_32, H.
  - intros bs H. destruct (get_mask_value self bs H) as (Hr & Hb & Hv).
    split; [exact Hr|]. split; [exact Hb|].
    split; [exact (get_mask_returns_4 self bs H)|exact Hv].
  - apply get_mask_zero_bytes.
  - apply get_ip_outside_forms.
  - intros bs H. split; [apply (get_ip_value_in_forms self bs H)|].
    exact (get_ip_returns_4 self bs H).
  - exists (x00 :: firstn 5 (PyLib.md5_digest (ip self))).
    split; [apply get_mac_eq|apply mac_length].
  - apply text_get_mac_returns.
  - intros He. split; [apply text_get_mac_raises, He|].
    rewrite text_get_ip. unfold as_str.
    destruct (TextRow.ip row) as [s|u]; [discriminate He|].
    rewrite He. reflexivity.
Qed.

Lemma helpers_on_invalid_input_witness :
  raises (get_mask {| topology := 1; port := 2; ip := "1.2.3.999"; mask := 33 |})
  /\ raises (get_ip {| topology := 1; port := 2; ip := "1.2.3.999"; mask := 33 |}).
Proof.
  split.
  - apply (proj1 (helpers_on_invalid_input
                    {| topology := 1; port := 2; ip := "1.2.3.999"; mask := 33 |}
                    {| TextRow.topology := 1; TextRow.port := 2;
                       TextRow.ip := Str "1.2.3.999"; TextRow.mask := 33 |})).
    right. cbn [mask]. lia.
  - apply (proj1 (proj2 (proj2 (proj2 (helpers_on_invalid_input
                    {| topology := 1; port := 2; ip := "1.2.3.999"; mask := 33 |}
                    {| TextRow.topology := 1; TextRow.port := 2;
                       TextRow.ip := Str "1.2.3.999"; TextRow.mask := 33 |}))))).
    vm_compute. reflexivity.
Defined.

(** ** Saved rows *)

Lemma save_rows_eq (rows table : list IPAssignment) :
  fold_left save rows table = table ++ rows.
Proof.
  revert table. induction rows as [|r rows IH]; intros table.
  - cbn [fold_left]. rewrite List.app_nil_r. reflexivity.
  - cbn [fold_left]. rewrite IH. unfold save. rewrite <- app_assoc.
    reflexivity.
Qed.

(** C9 (as stated). A row whose mask is 33, outside [1,32], is not
    rejected: saving it puts it in the table. *)
Lemma save_persists_mask_33 :
  ~ (1 <= mask (with_mask 33) <= 32) /\
  ~ In 33 (map fst mask_choices) /\
  save [] (with_mask 33) = [with_mask 33] /\
  In (with_mask 33) (save [] (with_mask 33)).
Proof.
  split; [cbn [mask with_mask]; lia|].
  split; [rewrite mask_choice_iff; lia|].
  split; [reflexivity|left; reflexivity].
Qed.

(** C9 (amended). The choices declared for the [mask] field are exactly the
    integers 1 to 32.  The declaration is not enforced when a row is saved:
    every saved row is in the table afterwards, whatever its mask, and the
    rows of the table all have their mask in [1,32] exactly when each row
    that was saved had one of the declared choices as its mask. *)
Theorem mask_field_invariant (rows : list IPAssignment) :
  (forall i, In i (map fst mask_choices) <-> 1 <= i <= 32) /\
  (forall table self, In self (save table self)) /\
  (Forall (fun r => 1 <= mask r <= 32) (fold_left save rows [])
   <-> Forall (fun r => In (mask r) (map fst mask_choices)) rows).
Proof.
  split; [apply mask_choice_iff|]. split.
  - intros table self. unfold save. apply in_or_app. right. left. reflexivity.
  - rewrite save_rows_eq. cbn [app]. rewrite !Forall_forall.
    split; intros H r Hr; apply mask_choice_iff, H, Hr.
Qed.

Lemma mask_field_invariant_witness :
  Forall (fun r => 1 <= mask r <= 32)
         (fold_left save [with_mask 8; with_mask 32] []).
Proof.
  apply (proj2 (proj2 (proj2 (mask_field_invariant
                                [with_mask 8; with_mask 32])))).
  apply Forall_cons;
    [vm_compute; repeat (first [left; reflexivity | right])|].
  apply Forall_cons;
    [vm_compute; repeat (first [left; reflexivity | right])|].
  apply Forall_nil.
Defined.
